(** * fastpaze: the embeddable Go HTTP server of [libgoserver.go]

    A shallow embedding of the route registry, the middleware chain, the
    request dispatcher, the OpenAPI generator and the background task runner,
    followed by the properties of the specification that were checked
    against it.

    Modelling conventions.
    - Go strings are [string]s of bytes; a [*C.char] argument is an
      [option string], [None] being the nil pointer.
    - Go maps are [gmap]s.  A [for ... range] over a map visits the entries
      in an order chosen by the runtime: every function that ranges over
      [routes] takes the visiting order as an argument, and the theorems
      quantify over all orders that enumerate the map.
    - The package-level variables and the handler installed by [StartServer]
      are the fields of [State]; exported functions are state transformers
      that also append to the log.
    - An [http.ResponseWriter] is a recorder of status, content type and
      body.  Whether the writes of [Encode] succeed is decided by the
      connection: a handler run is given the error [Encode] returns, if any.
    - [strings.ToUpper] and [strings.ToLower] belong to Go's library and
      map every Unicode letter: they are parameters of the development
      (class [CaseMapping]), about which only what is written in the class
      is assumed.  The instance [text_case] computes them on text whose
      only non-ASCII rune is the Kelvin sign and is what the examples run.
    - A request carries its escaped path, the one the mux of Go 1.22 and
      later matches segment by segment; [r.URL.Path] is its decoding.
    - Goroutines running [TaskManager] are an interleaving transition system
      over the buffered channels handed out by [taskPool]. *)

From Stdlib Require Import ZArith String Ascii List DecimalString DecimalZ.
From stdpp Require Import base option list strings gmap.

(** ** Go's [strings] and [fmt] helpers used by the source *)

Module Strings.

Definition upper_byte (c : ascii) : ascii :=
  let n := nat_of_ascii c in
  if Nat.leb 97 n && Nat.leb n 122 then ascii_of_nat (n - 32) else c.

Definition lower_byte (c : ascii) : ascii :=
  let n := nat_of_ascii c in
  if Nat.leb 65 n && Nat.leb n 90 then ascii_of_nat (n + 32) else c.

(** [strings.ToUpper] and [strings.ToLower], functions of Go's library.
    Besides their being functions, the development uses one fact: text that
    has been uppercased is left alone by uppercasing. *)
Class CaseMapping := {
  ToUpper : string → string;
  ToLower : string → string;
  ToUpper_fixed : ∀ s, ToUpper (ToUpper s) = ToUpper s
}.

(** Uppercasing of ASCII letters, every other byte kept. *)
Fixpoint ascii_upper (s : string) : string :=
  match s with
  | EmptyString => EmptyString
  | String c r => String (upper_byte c) (ascii_upper r)
  end.


Definition is_kelvin (a b c : ascii) : bool :=
  Nat.eqb (nat_of_ascii a) 226 && Nat.eqb (nat_of_ascii b) 132
  && Nat.eqb (nat_of_ascii c) 170.

(** Lowercasing of ASCII letters and of the Kelvin sign, every other byte
    kept. *)
Fixpoint kelvin_lower (s : string) : string :=
  match s with
  | EmptyString => EmptyString
  | String a r =>
      match r with
      | String b (String c r2) =>
          if is_kelvin a b c then String "k" (kelvin_lower r2)
          else String (lower_byte a) (kelvin_lower r)
      | _ => String (lower_byte a) (kelvin_lower r)
      end
  end.

(** The two library functions on text made of ASCII characters and Kelvin
    signs: the mapping the examples are evaluated with. *)
#[export] Instance text_case : CaseMapping.
Proof.
  refine {| ToUpper := ascii_upper; ToLower := kelvin_lower |}.
  intros s. induction s as [|c s IH]; simpl; [reflexivity|].
  rewrite IH. f_equal. destruct c as [[] [] [] [] [] [] [] []]; reflexivity.
Defined.

(** The one-character strings that cannot be written inside a literal. *)
Definition dquote : string := String (ascii_of_nat 34) EmptyString.
Definition newline : string := String (ascii_of_nat 10) EmptyString.

(** [%d] applied to an [int64]. *)
Definition decimal (n : Z) : string := NilEmpty.string_of_int (Z.to_int n).

(** [strings.HasPrefix s p]. *)
Definition HasPrefix (s p : string) : bool := String.prefix p s.

(** The value of a hexadecimal digit. *)
Definition unhex (c : ascii) : option nat :=
  let n := nat_of_ascii c in
  if Nat.leb 48 n && Nat.leb n 57 then Some (n - 48)
  else if Nat.leb 97 n && Nat.leb n 102 then Some (n - 87)
  else if Nat.leb 65 n && Nat.leb n 70 then Some (n - 55)
  else None.

(** [url.PathUnescape]: every [%XX] becomes the byte it names; [None] is
    the error for a [%] not followed by two hexadecimal digits. *)
Fixpoint PathUnescape (s : string) : option string :=
  match s with
  | EmptyString => Some EmptyString
  | String c r =>
      if Ascii.eqb c "%" then
        match r with
        | String a (String b r2) =>
            match unhex a, unhex b with
            | Some x, Some y => String (ascii_of_nat (16 * x + y)) <$> PathUnescape r2
            | _, _ => None
            end
        | _ => None
        end
      else String c <$> PathUnescape r
  end.

(** The helper [pathUnescape] of [net/http]: the text itself on error. *)
Definition pathUnescape (s : string) : string := default s (PathUnescape s).

(** Text made of ASCII characters only. *)
Fixpoint ascii_text (s : string) : bool :=
  match s with
  | EmptyString => true
  | String c r => Nat.ltb (nat_of_ascii c) 128 && ascii_text r
  end.

Definition between (lo hi : nat) (c : ascii) : bool :=
  Nat.leb lo (nat_of_ascii c) && Nat.leb (nat_of_ascii c) hi.

(** The first two bytes of a three-byte and of a four-byte UTF-8 sequence,
    as [utf8.DecodeRune] accepts them (no overlong form, no surrogate,
    nothing above U+10FFFF). *)
Definition lead3 (a b : ascii) : bool :=
  (Nat.eqb (nat_of_ascii a) 224 && between 160 191 b)
  || ((between 225 236 a || between 238 239 a) && between 128 191 b)
  || (Nat.eqb (nat_of_ascii a) 237 && between 128 159 b).

Definition lead4 (a b : ascii) : bool :=
  (Nat.eqb (nat_of_ascii a) 240 && between 144 191 b)
  || (between 241 243 a && between 128 191 b)
  || (Nat.eqb (nat_of_ascii a) 244 && between 128 143 b).

(** U+FFFD REPLACEMENT CHARACTER. *)
Definition replacement : string :=
  String (ascii_of_nat 239) (String (ascii_of_nat 191) (String (ascii_of_nat 189) EmptyString)).

(** The string value [encoding/json] writes for a Go string, as a reader
    of the JSON gets it back: every byte that does not start a valid UTF-8
    sequence has become U+FFFD. *)
Fixpoint json_string (s : string) : string :=
  match s with
  | EmptyString => EmptyString
  | String a r =>
      if Nat.ltb (nat_of_ascii a) 128 then String a (json_string r)
      else
        match r with
        | String b r1 =>
            if between 194 223 a && between 128 191 b
            then String a (String b (json_string r1))
            else
              match r1 with
              | String c r2 =>
                  if lead3 a b && between 128 191 c
                  then String a (String b (String c (json_string r2)))
                  else
                    match r2 with
                    | String d r3 =>
                        if lead4 a b && between 128 191 c && between 128 191 d
                        then String a (String b (String c (String d (json_string r3))))
                        else replacement +:+ json_string r
                    | EmptyString => replacement +:+ json_string r
                    end
              | EmptyString => replacement +:+ json_string r
              end
        | EmptyString => replacement
        end
  end.

(** Splitting at a separator byte, as [strings.Split] with a one-byte
    separator: the result is never empty. *)
Fixpoint split_at (sep : ascii) (s : string) : list string :=
  match s with
  | EmptyString => [EmptyString]
  | String c r =>
      if Ascii.eqb c sep then EmptyString :: split_at sep r
      else match split_at sep r with
           | seg :: segs => String c seg :: segs
           | [] => [String c EmptyString]
           end
  end.

End Strings.

Import Strings.

(** ** Data model *)

Module ParameterInfo.
Record t := mk {
  Name : string;
  In : string;
  Description : string;
  Required : bool;
  Type' : string
}.
End ParameterInfo.

Module RouteInfo.
Record t := mk {
  Path : string;
  Method : string;
  Message : string;
  Description : string;
  Parameters : list ParameterInfo.t;
  Responses : gmap Z string
}.
End RouteInfo.

Module TaskResponse.
Record t := mk {
  Message : string;
  TaskID : string
}.
End TaskResponse.

Module ApiResponse.
Record t := mk {
  Message : string;
  BackgroundTask : TaskResponse.t
}.
End ApiResponse.

(** One method entry of the document: the
    [map[string]interface{}] literal with keys ["summary"], ["responses"]
    and ["parameters"] built in [ServeOpenAPI]. *)
Module Operation.
Record t := mk {
  summary : string;
  responses : gmap string (gmap string string);
  parameters : list ParameterInfo.t
}.
End Operation.

Module OpenAPI.
Record t := mk {
  OpenAPI : string;
  Info : gmap string string;
  Paths : gmap string (gmap string Operation.t);
  Components : gmap string string
}.
End OpenAPI.

(** The part of [*http.Request] the source and the mux read.
    [EscapedPath] is [r.URL.EscapedPath()], a valid encoding of the path;
    [Path] is [r.URL.Path], its decoding.  A request is one that the server
    hands to its handler: [OPTIONS *] is answered by the server itself. *)
Module Request.
Record t := mk {
  Method : string;
  EscapedPath : string;
  RemoteAddr : string
}.
Definition Path (r : t) : string := pathUnescape (EscapedPath r).
End Request.

(** JSON values, as read back from what [encoding/json] writes for the
    response structs. *)
#[local] Unset Elimination Schemes.
Inductive JSON :=
| JString (s : string)
| JObject (fields : list (string * JSON)).
#[local] Set Elimination Schemes.

(** Field names follow the [json:"..."] tags; [omitempty] never drops a
    struct-typed field; string values are written as [json_string] gives
    them. *)
Definition marshal_TaskResponse (t : TaskResponse.t) : JSON :=
  JObject [("message", JString (json_string (TaskResponse.Message t)));
           ("task_id", JString (json_string (TaskResponse.TaskID t)))].

Definition marshal_ApiResponse (r : ApiResponse.t) : JSON :=
  JObject [("message", JString (json_string (ApiResponse.Message r)));
           ("background_task", marshal_TaskResponse (ApiResponse.BackgroundTask r))].

(** A body is the JSON written for an [ApiResponse], the [OpenAPI] value
    handed to the encoder, or plain text. *)
Inductive Body :=
| BodyJSON (j : JSON)
| BodyDoc (d : OpenAPI.t)
| BodyText (s : string).

Inductive Response :=
| Reply (status : nat) (content_type : string) (body : Body)
  (** written by a handler of this file *)
| FileServed (r : Request.t)
  (** whatever the library handler
      [http.StripPrefix("/swagger/", http.FileServer(http.Dir("swagger-ui")))]
      answers to [r] *)
| Redirected
  (** the mux's own 301, to the canonical form of the path or to the root
      of the subtree *)
| BadRequest.
  (** the mux's own 400 for the request target [*] *)

(** A line written through [log]. *)
Inductive LogLine :=
| Line (text : string)
| RequestLine (method path remote : string).
  (** ["%s %s from %s in %v"]; the elapsed time is the clock's *)

(** What a handler run needs from outside the request: the current value of
    the global [routes], the order in which a [range] over it visits the
    entries, the reading of [time.Now().UnixNano()], and the error returned
    by [json.NewEncoder(w).Encode], [None] when the writes succeed. *)
Record Env := mkEnv {
  env_routes : gmap string RouteInfo.t;
  env_range : list (string * RouteInfo.t);
  env_now : Z;
  env_encode_error : option string
}.

(** What a handler run leaves behind: the recorded response, the log lines,
    and the task id given to [go TaskManager(...)] if one was started. *)
Record Outcome := mkOutcome {
  response : Response;
  logged : list LogLine;
  spawned : option string
}.

Definition Handler : Type := Env → Request.t → Outcome.
Definition Middleware : Type := Handler → Handler.

(** The package-level variables, the log, and [server.Handler]. *)
Record State := mkState {
  routes : gmap string RouteInfo.t;
  middlewares : list Middleware;
  log : list LogLine;
  installed : option Handler
}.

Definition init : State :=
  {| routes := ∅; middlewares := []; log := []; installed := None |}.

Definition println (l : LogLine) (s : State) : State :=
  {| routes := routes s; middlewares := middlewares s;
     log := log s ++ [l]; installed := installed s |}.

(** ** Registration surface *)

Definition loggingMiddleware : Middleware :=
  fun next env r =>
    let o := next env r in
    {| response := response o;
       logged := logged o ++
         [RequestLine (Request.Method r) (Request.Path r) (Request.RemoteAddr r)];
       spawned := spawned o |}.

Definition RegisterMiddleware (cName : option string) (cEnabled : Z) (s : State) : State :=
  match cName with
  | None => println (Line "Error: cName is nil in RegisterMiddleware") s
  | Some name =>
      let enabled := negb (Z.eqb cEnabled 0) in
      if negb enabled then
        println (Line ("Middleware " +:+ name +:+ " is disabled")) s
      else if String.eqb name "logging" then
        println (Line ("Registered middleware: " +:+ name))
          {| routes := routes s;
             middlewares := middlewares s ++ [loggingMiddleware];
             log := log s; installed := installed s |}
      else println (Line ("Unknown middleware: " +:+ name)) s
  end.

Definition new_route (path method message desc : string) : RouteInfo.t :=
  {| RouteInfo.Path := path;
     RouteInfo.Method := method;
     RouteInfo.Message := message;
     RouteInfo.Description := desc;
     RouteInfo.Parameters := [];
     RouteInfo.Responses := {[ 200%Z := "Successful response" ]} |}.

Definition RegisterRoute `{CaseMapping} (cPath cMethod cMessage cDesc : option string)
    (s : State) : State :=
  match cPath, cMethod, cMessage, cDesc with
  | Some path, Some m, Some message, Some desc =>
      let method := ToUpper m in
      let s1 := println (Line ("Registering route: " +:+ path +:+ " for method: "
                               +:+ method +:+ " with message: " +:+ message)) s in
      let key := path +:+ method in
      println (Line ("Route registered with key: " +:+ key))
        {| routes := <[ key := new_route path method message desc ]> (routes s1);
           middlewares := middlewares s1; log := log s1; installed := installed s1 |}
  | _, _, _, _ =>
      println (Line "Error: One or more parameters are nil in RegisterRoute") s
  end.

(** ** The request multiplexer

    [http.NewServeMux] with the three patterns registered by [StartServer]:
    ["/openapi.json"], the subtree ["/swagger/"] and the catch-all ["/"],
    as the mux of Go 1.22 and later resolves them ([findHandler],
    [matchOrRedirect] and the routing tree of [net/http]).  The mux works on
    the escaped path.  Unless the method is CONNECT, a path that
    [cleanPath] would change (empty, ["."] or [".."] segments, no leading
    slash) is answered by a redirect.  Otherwise the first segment is
    decoded and compared with the literal segments of the patterns:
    ["openapi.json"] with nothing after it is the exact pattern,
    ["swagger"] followed by a slash is the subtree, ["swagger"] alone is
    redirected to the subtree, and every other path falls to the
    catch-all.  A slash written as [%2F] is part of its segment.  With the
    catch-all registered every path matches some pattern; the request
    target [*] is refused by [ServeMux.ServeHTTP] before any matching. *)

Module ServeMux.

Definition dot_segment (seg : string) : bool :=
  String.eqb seg "." || String.eqb seg "..".

Fixpoint segments_ok (segs : list string) : bool :=
  match segs with
  | [] => false
  | [last] => negb (dot_segment last)
  | seg :: rest =>
      negb (String.eqb seg EmptyString) && negb (dot_segment seg) && segments_ok rest
  end.

(** The paths that [cleanPath] returns unchanged. *)
Definition canonical (p : string) : bool :=
  match split_at "/"%char p with
  | first :: rest => String.eqb first EmptyString && segments_ok rest
  | [] => false
  end.

Inductive Target :=
| ToServeOpenAPI
| ToFileServer
| ToDispatcher
| ToRedirect
| ToBadRequest.

(** The text before the first slash, and the rest from that slash on. *)
Fixpoint until_slash (s : string) : string * string :=
  match s with
  | EmptyString => (EmptyString, EmptyString)
  | String c r =>
      if Ascii.eqb c "/" then (EmptyString, s)
      else let '(seg, rest) := until_slash r in (String c seg, rest)
  end.

(** [firstSegment]: the first segment of a path, decoded, and the rest. *)
Definition firstSegment (path : string) : string * string :=
  if String.eqb path "/" then ("/", EmptyString)
  else
    match path with
    | EmptyString => (EmptyString, EmptyString)
    | String _ p1 => let '(seg, rest) := until_slash p1 in (pathUnescape seg, rest)
    end.

(** The match in the routing tree, with the redirect of [matchOrRedirect]:
    the empty path and ["/swagger"] match no pattern exactly and become
    ["/"] and ["/swagger/"]. *)
Definition match_path (p : string) : Target :=
  if String.eqb p EmptyString then ToRedirect
  else
    let '(seg, rest) := firstSegment p in
    if String.eqb seg "openapi.json" && String.eqb rest EmptyString then ToServeOpenAPI
    else if String.eqb seg "swagger"
         then (if String.eqb rest EmptyString then ToRedirect else ToFileServer)
         else ToDispatcher.

Definition route (r : Request.t) : Target :=
  let p := Request.EscapedPath r in
  if String.eqb p "*" then ToBadRequest
  else if negb (String.eqb (Request.Method r) "CONNECT") && negb (canonical p)
       then ToRedirect
       else match_path p.

End ServeMux.

(** ** Handlers *)

Definition silent (resp : Response) : Outcome :=
  {| response := resp; logged := []; spawned := None |}.

(** [http.Error(w, msg, code)]. *)
Definition http_Error (msg : string) (code : nat) : Response :=
  Reply code "text/plain; charset=utf-8" (BodyText (msg +:+ newline)).

Definition operation_of (route : RouteInfo.t) : Operation.t :=
  {| Operation.summary := RouteInfo.Description route;
     Operation.responses :=
       {[ "200" := {[ "description" :=
                        default EmptyString (RouteInfo.Responses route !! 200%Z) ]} ]};
     Operation.parameters := RouteInfo.Parameters route |}.

(** One iteration of the loop of [ServeOpenAPI]. *)
Definition add_route `{CaseMapping} (paths : gmap string (gmap string Operation.t))
    (route : RouteInfo.t) : gmap string (gmap string Operation.t) :=
  let paths1 :=
    match paths !! RouteInfo.Path route with
    | Some _ => paths
    | None => <[ RouteInfo.Path route := ∅ ]> paths
    end in
  match paths1 !! RouteInfo.Path route with
  | Some methods =>
      <[ RouteInfo.Path route :=
           <[ ToLower (RouteInfo.Method route) := operation_of route ]> methods ]> paths1
  | None => paths1
  end.

Definition build_paths `{CaseMapping} (rng : list (string * RouteInfo.t))
  : gmap string (gmap string Operation.t) :=
  foldl (fun paths kv => add_route paths kv.2) ∅ rng.

Definition openapi_document `{CaseMapping} (rng : list (string * RouteInfo.t)) : OpenAPI.t :=
  {| OpenAPI.OpenAPI := "3.0.0";
     OpenAPI.Info := <[ "title" := "GoServer API" ]> {[ "version" := "1.0.0" ]};
     OpenAPI.Paths := build_paths rng;
     OpenAPI.Components := ∅ |}.

(** [fmt.Sprintf(`{"error": "%s"}`, errorMsg)], also the form of the two
    literal error bodies. *)
Definition error_envelope (errorMsg : string) : string :=
  "{" +:+ dquote +:+ "error" +:+ dquote +:+ ": " +:+ dquote +:+ errorMsg +:+ dquote +:+ "}".

Definition ServeOpenAPI `{CaseMapping} : Handler :=
  fun env _ =>
    match env_encode_error env with
    | None =>
        silent (Reply 200 "application/json" (BodyDoc (openapi_document (env_range env))))
    | Some _ => silent (http_Error (error_envelope "Failed to generate OpenAPI") 500)
    end.

(** The handler registered on ["/swagger/"], library code throughout. *)
Definition swaggerFiles : Handler := fun _ r => silent (FileServed r).

(** The scan for a route with the same path, in the order of the range. *)
Fixpoint supported_method (path : string) (rng : list (string * RouteInfo.t)) : string :=
  match rng with
  | [] => EmptyString
  | (_, rt) :: rest =>
      if String.eqb (RouteInfo.Path rt) path then RouteInfo.Method rt
      else supported_method path rest
  end.

Definition not_found_message (method path supportedMethod : string) : string :=
  let errorMsg := "Route not found for " +:+ method +:+ " " +:+ path in
  if negb (String.eqb supportedMethod EmptyString)
  then errorMsg +:+ " - Try using method " +:+ supportedMethod
  else errorMsg.

Definition task_id (now : Z) : string := "task-" +:+ decimal now.

Definition success_response (route : RouteInfo.t) (taskID : string) : ApiResponse.t :=
  {| ApiResponse.Message := RouteInfo.Message route;
     ApiResponse.BackgroundTask :=
       {| TaskResponse.Message := "Task started in background: " +:+ taskID;
          TaskResponse.TaskID := taskID |} |}.

(** The function literal registered on ["/"]: dynamic route handling. *)
Definition dispatcher : Handler :=
  fun env r =>
    let key := Request.Path r +:+ Request.Method r in
    match env_routes env !! key with
    | None =>
        let supportedMethod := supported_method (Request.Path r) (env_range env) in
        let errorMsg := not_found_message (Request.Method r) (Request.Path r) supportedMethod in
        {| response := http_Error (error_envelope errorMsg) 404;
           logged := [Line ("Route not found for key: " +:+ key +:+ " (Path: "
                            +:+ Request.Path r +:+ ", Method: " +:+ Request.Method r +:+ ")")];
           spawned := None |}
    | Some route =>
        let taskID := task_id (env_now env) in
        match env_encode_error env with
        | Some err =>
            {| response := http_Error (error_envelope "Internal server error") 500;
               logged := [Line ("Route found for key: " +:+ key +:+ ", serving response");
                          Line ("Error encoding response: " +:+ err)];
               spawned := None |}
        | None =>
            {| response := Reply 200 "application/json"
                             (BodyJSON (marshal_ApiResponse (success_response route taskID)));
               logged := [Line ("Route found for key: " +:+ key +:+ ", serving response")];
               spawned := Some taskID |}
        end
    end.

Definition mux `{CaseMapping} : Handler :=
  fun env r =>
    match ServeMux.route r with
    | ServeMux.ToServeOpenAPI => ServeOpenAPI env r
    | ServeMux.ToFileServer => swaggerFiles env r
    | ServeMux.ToDispatcher => dispatcher env r
    | ServeMux.ToRedirect => silent Redirected
    | ServeMux.ToBadRequest => silent BadRequest
    end.

(** ** Server start *)

(** [for i := len(middlewares) - 1; i >= 0; i-- { handler = middlewares[i](handler) }],
    with [n] the number of iterations left, that is [i + 1]. *)
Fixpoint wrap_down (mws : list Middleware) (n : nat) (handler : Handler) : Handler :=
  match n with
  | O => handler
  | S i =>
      match mws !! i with
      | Some mw => wrap_down mws i (mw handler)
      | None => handler
      end
  end.

Definition build_chain (mws : list Middleware) (terminal : Handler) : Handler :=
  wrap_down mws (length mws) terminal.

Definition StartServer `{CaseMapping} (s : State) : State :=
  let handler := build_chain (middlewares s) mux in
  println (Line "API docs available at http://localhost:8080/swagger/")
    (println (Line "Go server running on http://localhost:8080")
       {| routes := routes s; middlewares := middlewares s;
          log := log s; installed := Some handler |}).

(** The surroundings of a handler run on state [s]; [the_env] is the case
    of a connection that takes the writes. *)
Definition the_env_io (s : State) (rng : list (string * RouteInfo.t)) (now : Z)
    (err : option string) : Env :=
  {| env_routes := routes s; env_range := rng; env_now := now; env_encode_error := err |}.

Definition the_env (s : State) (rng : list (string * RouteInfo.t)) (now : Z) : Env :=
  the_env_io s rng now None.

(** A request answered by the running server: the installed handler runs
    against the registry as it is when the request arrives. *)
Definition serve_io (s : State) (rng : list (string * RouteInfo.t)) (now : Z)
    (err : option string) (r : Request.t) : option Outcome :=
  match installed s with
  | Some handler => Some (handler (the_env_io s rng now err) r)
  | None => None
  end.

Definition serve (s : State) (rng : list (string * RouteInfo.t)) (now : Z)
    (r : Request.t) : option Outcome :=
  match installed s with
  | Some handler =>
      Some (handler (the_env s rng now) r)
  | None => None
  end.

(** The calls an embedding process can make, and the states they reach.
    [StartServer] binds the port and runs until shutdown, so a process
    makes that call at most once. *)
Inductive reachable `{CaseMapping} : State → Prop :=
| reach_init : reachable init
| reach_route cPath cMethod cMessage cDesc s :
    reachable s → reachable (RegisterRoute cPath cMethod cMessage cDesc s)
| reach_middleware cName cEnabled s :
    reachable s → reachable (RegisterMiddleware cName cEnabled s)
| reach_start s :
    reachable s → installed s = None → reachable (StartServer s).

(** ** Background tasks

    A channel made by [make(chan struct{}, 10)] is the number of values in
    its buffer.  A goroutine running [TaskManager] is at one of four program
    points; its moves are the communications its [select] statements and its
    deferred receive can perform. *)

Definition capacity : nat := 10.

Inductive PC :=
| AtSelect   (** at the outer [select], nothing sent yet *)
| Running    (** inside the first case, at the inner [select] *)
| AtDefer    (** body finished, the deferred [<-taskChan] is pending *)
| Returned.

Inductive Move :=
| MSend      (** [case taskChan <- struct{}{}] *)
| MDone      (** [case <-ctx.Done()] of the [select] the task is at *)
| MTimer     (** [case <-time.After(2 * time.Second)] *)
| MRecv.     (** the deferred [<-taskChan] *)

(** One move of [TaskManager(ctx, taskID, taskChan)]: from the number of
    buffered values and the program point to the new ones and the line
    logged, or [None] when the communication cannot proceed. *)
Definition TaskManager (cancelled : bool) (taskID : string) (m : Move)
    (buffered : nat) (pc : PC) : option (nat * PC * list LogLine) :=
  match pc, m with
  | AtSelect, MSend =>
      if Nat.ltb buffered capacity
      then Some (S buffered, Running, [Line ("Starting background task " +:+ taskID)])
      else None
  | AtSelect, MDone =>
      if cancelled
      then Some (buffered, AtDefer, [Line ("Task " +:+ taskID +:+ " not started due to shutdown")])
      else None
  | Running, MTimer =>
      Some (buffered, AtDefer, [Line ("Completed background task " +:+ taskID)])
  | Running, MDone =>
      if cancelled
      then Some (buffered, AtDefer, [Line ("Cancelled background task " +:+ taskID)])
      else None
  | AtDefer, MRecv =>
      match buffered with
      | S n => Some (n, Returned, [])
      | O => None
      end
  | _, _ => None
  end.

Record Task := mkTask {
  task_name : string;
  task_chan : nat;
  task_pc : PC
}.

(** The task subsystem of a running server: the values put back into
    [taskPool], the channels allocated so far (by index), the goroutines
    started by the dispatcher, whether [taskCtx] is cancelled, and the log. *)
Record TaskState := mkTaskState {
  pool : list nat;
  chans : list nat;
  tasks : list Task;
  cancelled : bool;
  task_log : list LogLine
}.

Definition tasks_init : TaskState :=
  {| pool := []; chans := []; tasks := []; cancelled := false; task_log := [] |}.

Inductive Event :=
| Spawn (taskID : string)
  (** [taskChan := taskPool.Get().(chan struct{}); go TaskManager(taskCtx, taskID, taskChan)] *)
| Step (i : nat) (m : Move)
  (** goroutine [i] performs a move *)
| Shutdown.
  (** [taskCancel()] *)

(** [taskPool.Get()]: a value put back earlier if there is one, else
    [New()], a fresh channel with an empty buffer. *)
Definition taskPool_Get (st : TaskState) : nat * TaskState :=
  match pool st with
  | c :: rest =>
      (c, {| pool := rest; chans := chans st; tasks := tasks st;
             cancelled := cancelled st; task_log := task_log st |})
  | [] =>
      (length (chans st),
       {| pool := []; chans := chans st ++ [O]; tasks := tasks st;
          cancelled := cancelled st; task_log := task_log st |})
  end.

Definition step (ev : Event) (st : TaskState) : option TaskState :=
  match ev with
  | Spawn taskID =>
      let '(c, st1) := taskPool_Get st in
      Some {| pool := pool st1; chans := chans st1;
              tasks := tasks st1 ++ [mkTask taskID c AtSelect];
              cancelled := cancelled st1; task_log := task_log st1 |}
  | Step i m =>
      t ← tasks st !! i;
      buffered ← chans st !! task_chan t;
      '(buffered', pc', lines) ← TaskManager (cancelled st) (task_name t) m buffered (task_pc t);
      Some {| pool := pool st;
              chans := <[ task_chan t := buffered' ]> (chans st);
              tasks := <[ i := mkTask (task_name t) (task_chan t) pc' ]> (tasks st);
              cancelled := cancelled st;
              task_log := task_log st ++ lines |}
  | Shutdown =>
      Some {| pool := pool st; chans := chans st; tasks := tasks st;
              cancelled := true; task_log := task_log st |}
  end.

Fixpoint run (evs : list Event) (st : TaskState) : option TaskState :=
  match evs with
  | [] => Some st
  | ev :: rest => st1 ← step ev st; run rest st1
  end.

Definition is_running (t : Task) : bool :=
  match task_pc t with Running => true | _ => false end.

(** The number of goroutines that have sent on their channel and are inside
    the timed section. *)
Definition running (st : TaskState) : nat := length (filter is_running (tasks st)).

(** The events the dispatcher contributes after serving a request. *)
Definition spawn_events (o : option Outcome) : list Event :=
  match o with
  | Some {| spawned := Some taskID |} => [Spawn taskID]
  | _ => []
  end.

(** ** Invariants of reachable states

    Every entry was written by [RegisterRoute]: it sits under the
    concatenation of its own path and method, and its method is uppercase. *)

Definition route_wf `{CaseMapping} (key : string) (rt : RouteInfo.t) : Prop :=
  ∃ path m message desc,
    rt = new_route path (ToUpper m) message desc ∧ key = path +:+ ToUpper m.

Definition routes_wf `{CaseMapping} (m : gmap string RouteInfo.t) : Prop :=
  map_Forall route_wf m.

Definition only_logging (mws : list Middleware) : Prop :=
  Forall (fun mw => mw = loggingMiddleware) mws.

(** The composition [wrappers[0](wrappers[1](...(terminal)))]. *)
Definition nested (wrappers : list Middleware) (terminal : Handler) : Handler :=
  foldr (fun wrapper next => wrapper next) terminal wrappers.

(** The success envelope, as JSON. *)
Definition success_envelope (message taskID : string) : JSON :=
  JObject [("message", JString message);
           ("background_task",
            JObject [("message", JString ("Task started in background: " +:+ taskID));
                     ("task_id", JString taskID)])].





(** ** Example processes *)

(** A request given by its method and its escaped path. *)
Definition client (method path : string) : Request.t :=
  {| Request.Method := method; Request.EscapedPath := path;
     Request.RemoteAddr := "127.0.0.1:40000" |}.

Definition hello_server : State :=
  StartServer
    (RegisterRoute (Some "/hello") (Some "GET") (Some "Hi there") (Some "greets the caller") init).

Definition shadowed_server : State :=
  StartServer
    (RegisterRoute (Some "/openapi.json") (Some "GET") (Some "shadowed") (Some "a route") init).

Definition collision_server : State :=
  StartServer (RegisterRoute (Some "/a") (Some "BGET") (Some "from /a") (Some "a route") init).

Definition empty_method_server : State :=
  StartServer
    (RegisterRoute (Some "/hello") (Some EmptyString) (Some "Hi there") (Some "a route") init).

(** A message that is not valid UTF-8: "a", the byte 255, "b". *)
Definition garbled : string :=
  String "a" (String (ascii_of_nat 255) (String "b" EmptyString)).

Definition garbled_server : State :=
  StartServer
    (RegisterRoute (Some "/hello") (Some "GET") (Some garbled) (Some "a route") init).

Definition twice_registered : State :=
  RegisterRoute (Some "/hello") (Some "GET") (Some garbled) (Some "later")
    (RegisterRoute (Some "/hello") (Some "get") (Some "first") (Some "earlier") init).

(** A route whose path lies under /swagger/. *)
Definition swagger_route_server : State :=
  StartServer
    (RegisterRoute (Some "/swagger/x.txt") (Some "GET") (Some "from the route")
       (Some "a route") init).


Definition late_server : State :=
  RegisterRoute (Some "/late") (Some "post") (Some "Late") (Some "added after start")
    hello_server.

(** The task events of matched requests for GET /hello arriving at the
    given clock readings, and the sends of the first [n] goroutines. *)
Definition hello_spawns (times : list Z) : list Event :=
  flat_map
    (fun now =>
       spawn_events (serve hello_server (map_to_list (routes hello_server)) now
                       (client "GET" "/hello")))
    times.

Definition sends (n : nat) : list Event := (fun i => Step i MSend) <$> seq 0 n.

Definition eleven_arrivals : list Z := [1; 2; 3; 4; 5; 6; 7; 8; 9; 10; 11]%Z.

(** [n] dispatches, each task sending on its channel as soon as it is
    started. *)
Fixpoint burst (n : nat) : list Event :=
  match n with
  | O => []
  | S k => burst k ++ [Spawn (task_id (Z.of_nat k)); Step k MSend]
  end.

(** Shutdown, then one more dispatch whose task takes the [ctx.Done()] case
    of the outer [select]. *)
Definition late_task : list Event := [Shutdown; Spawn "task-1"; Step 0 MDone].

Definition late_task_state : TaskState :=
  {| pool := []; chans := [0];
     tasks := [mkTask "task-1" 0 AtDefer];
     cancelled := true;
     task_log := [Line "Task task-1 not started due to shutdown"] |}.

(** What holds of every state that follows [late_task_state]. *)
Definition late_task_stuck (st : TaskState) : Prop :=
  pool st = []
  ∧ tasks st !! 0 = Some (mkTask "task-1" 0 AtDefer)
  ∧ chans st !! 0 = Some 0
  ∧ ∀ i t, tasks st !! i = Some t → task_chan t = 0 → i = 0.

Definition range_of (s : State) : list (string * RouteInfo.t) := map_to_list (routes s).

(** ** The dependency store

    The global [dependencies] sits beside the server's variables; the two
    exported functions below are the only code that touches it. *)

Record Process := mkProcess {
  server_state : State;
  dependencies : gmap string string
}.

Definition process_init : Process :=
  {| server_state := init; dependencies := ∅ |}.

Definition RegisterDependency (cName cValue : option string) (p : Process) : Process :=
  match cName, cValue with
  | Some name, Some value =>
      {| server_state := server_state p;
         dependencies := <[ name := value ]> (dependencies p) |}
  | _, _ =>
      {| server_state :=
           println (Line "Error: One or more parameters are nil in RegisterDependency")
             (server_state p);
         dependencies := dependencies p |}
  end.

(** [GetDependency(name)]: the value, [None] being the nil interface, and
    the presence flag. *)
Definition GetDependency (name : string) (p : Process) : option string * bool :=
  match dependencies p !! name with
  | Some val => (Some val, true)
  | None => (None, false)
  end.

Definition register_dependencies (calls : list (option string * option string))
    (p : Process) : Process :=
  foldl (fun p c => RegisterDependency c.1 c.2 p) p calls.

(** ** Sequences of registration calls *)

Inductive Call :=
| CallRoute (cPath cMethod cMessage cDesc : option string)
| CallMiddleware (cName : option string) (cEnabled : Z).

Definition apply_call `{CaseMapping} (c : Call) (s : State) : State :=
  match c with
  | CallRoute cPath cMethod cMessage cDesc => RegisterRoute cPath cMethod cMessage cDesc s
  | CallMiddleware cName cEnabled => RegisterMiddleware cName cEnabled s
  end.

Definition apply_calls `{CaseMapping} (calls : list Call) (s : State) : State :=
  foldl (fun s c => apply_call c s) s calls.

(** The line [loggingMiddleware] writes for a request. *)
Definition request_line (r : Request.t) : LogLine :=
  RequestLine (Request.Method r) (Request.Path r) (Request.RemoteAddr r).

(** ** Invariants of the task subsystem *)

(** What the buffer of a task's channel holds at each program point when
    the channel is the task's alone. *)
Definition buffer_ok (pc : PC) (buffered : nat) : Prop :=
  match pc with
  | AtSelect | Returned => buffered = 0
  | Running => buffered = 1
  | AtDefer => buffered ≤ 1
  end.

Definition own_channels (st : TaskState) : Prop :=
  pool st = []
  ∧ length (chans st) = length (tasks st)
  ∧ ∀ i t, tasks st !! i = Some t →
           task_chan t = i ∧ ∃ b, chans st !! i = Some b ∧ buffer_ok (task_pc t) b.

Definition start_or_completion (l : LogLine) : Prop :=
  ∃ taskID, l = Line ("Starting background task " +:+ taskID)
            ∨ l = Line ("Completed background task " +:+ taskID).

(** * Properties *)

(** ** Strings *)

Section StringFacts.

(** ASCII text is valid UTF-8: [encoding/json] writes it as it is. *)
Lemma json_string_ascii s : ascii_text s = true → json_string s = s.
Proof.
  induction s as [|c s IH]; [done|]. cbn [ascii_text json_string].
  intros [Hc Hs]%andb_prop. rewrite Hc. by rewrite IH.
Qed.

Lemma ascii_text_append (a b : string) :
  ascii_text a = true → ascii_text b = true → ascii_text (a +:+ b) = true.
Proof.
  induction a as [|c a IH]; [done|]. cbn [ascii_text]. intros [Hc Ha]%andb_prop Hb.
  change (String c a +:+ b) with (String c (a +:+ b)). cbn [ascii_text].
  by rewrite Hc, IH.
Qed.

Lemma ascii_text_uint d : ascii_text (NilEmpty.string_of_uint d) = true.
Proof. induction d; simpl; done. Qed.

Lemma ascii_text_decimal n : ascii_text (decimal n) = true.
Proof.
  unfold decimal, NilEmpty.string_of_int. destruct (Z.to_int n); simpl;
    apply ascii_text_uint.
Qed.

Lemma ascii_text_task_id now : ascii_text (task_id now) = true.
Proof. unfold task_id. apply ascii_text_append; [done | apply ascii_text_decimal]. Qed.

Lemma append_inv_head (p a b : string) : p +:+ a = p +:+ b → a = b.
Proof. induction p as [|c p IH]; simpl; [done|]. intros [= H]. by apply IH. Qed.

Lemma prefix_split (p s : string) : String.prefix p s = true → ∃ rest, s = p +:+ rest.
Proof.
  revert s. induction p as [|a p IH]; intros s.
  - intros _. exists s. by destruct s.
  - destruct s as [|b s]; simpl; [done|]. destruct (ascii_dec a b) as [->|]; [|done].
    intros [rest ->]%IH. by exists rest.
Qed.

Lemma length_append (p s : string) :
  String.length (p +:+ s) = String.length p + String.length s.
Proof. induction p as [|c p IH]; simpl; [done|]. by rewrite IH. Qed.

End StringFacts.

Section Registry.

Context {lib : CaseMapping}.

Lemma routes_println l s : routes (println l s) = routes s.
Proof. done. Qed.

Lemma RegisterRoute_routes path m message desc s :
  routes (RegisterRoute (Some path) (Some m) (Some message) (Some desc) s)
  = <[ path +:+ ToUpper m := new_route path (ToUpper m) message desc ]> (routes s).
Proof. done. Qed.

Lemma RegisterRoute_nil cPath cMethod cMessage cDesc s :
  cPath = None ∨ cMethod = None ∨ cMessage = None ∨ cDesc = None →
  RegisterRoute cPath cMethod cMessage cDesc s
  = println (Line "Error: One or more parameters are nil in RegisterRoute") s.
Proof.
  intros H. destruct cPath, cMethod, cMessage, cDesc; try done.
  by destruct H as [|[|[|]]].
Qed.

Lemma RegisterMiddleware_routes cName cEnabled s :
  routes (RegisterMiddleware cName cEnabled s) = routes s.
Proof.
  unfold RegisterMiddleware. destruct cName as [name|]; [|done]. simpl.
  destruct (negb (negb (cEnabled =? 0)%Z)); [done|]. by destruct (String.eqb name "logging").
Qed.

Lemma RegisterMiddleware_installed cName cEnabled s :
  installed (RegisterMiddleware cName cEnabled s) = installed s.
Proof.
  unfold RegisterMiddleware. destruct cName as [name|]; [|done]. simpl.
  destruct (negb (negb (cEnabled =? 0)%Z)); [done|]. by destruct (String.eqb name "logging").
Qed.

Lemma RegisterRoute_installed cPath cMethod cMessage cDesc s :
  installed (RegisterRoute cPath cMethod cMessage cDesc s) = installed s.
Proof. by destruct cPath, cMethod, cMessage, cDesc. Qed.

Lemma RegisterRoute_middlewares cPath cMethod cMessage cDesc s :
  middlewares (RegisterRoute cPath cMethod cMessage cDesc s) = middlewares s.
Proof. by destruct cPath, cMethod, cMessage, cDesc. Qed.

Lemma RegisterMiddleware_only_logging cName cEnabled s :
  only_logging (middlewares s) → only_logging (middlewares (RegisterMiddleware cName cEnabled s)).
Proof.
  intros H. unfold RegisterMiddleware. destruct cName as [name|]; [|done]. simpl.
  destruct (negb (negb (cEnabled =? 0)%Z)); [done|].
  destruct (String.eqb name "logging"); [|done]. simpl.
  apply Forall_app. split; [done|]. by constructor.
Qed.

Lemma reachable_routes_wf s : reachable s → routes_wf (routes s).
Proof.
  induction 1 as [|cPath cMethod cMessage cDesc s _ IH|cName cEnabled s _ IH|s _ IH _].
  - apply map_Forall_empty.
  - destruct cPath as [path|], cMethod as [m|], cMessage as [message|], cDesc as [desc|];
      try exact IH.
    rewrite RegisterRoute_routes. apply map_Forall_insert_2; [|done].
    by exists path, m, message, desc.
  - by rewrite RegisterMiddleware_routes.
  - exact IH.
Qed.

Lemma reachable_only_logging s : reachable s → only_logging (middlewares s).
Proof.
  induction 1 as [|cPath cMethod cMessage cDesc s _ IH|cName cEnabled s _ IH|s _ IH _].
  - constructor.
  - by rewrite RegisterRoute_middlewares.
  - by apply RegisterMiddleware_only_logging.
  - exact IH.
Qed.


End Registry.

(** ** The middleware chain *)

Section Chain.

Context {lib : CaseMapping}.

Lemma wrap_down_take (mws : list Middleware) n handler :
  n ≤ length mws → wrap_down mws n handler = nested (take n mws) handler.
Proof.
  revert handler. induction n as [|i IH]; intros handler Hn; cbn [wrap_down].
  - by destruct mws.
  - destruct (mws !! i) as [mw|] eqn:Hi.
    + rewrite (take_S_r (A:=Middleware) mws i mw Hi). unfold nested. rewrite foldr_app. simpl.
      apply IH. by apply Nat.lt_le_incl.
    + apply lookup_ge_None in Hi. by apply Nat.lt_nge in Hn.
Qed.

Lemma build_chain_nested mws terminal : build_chain mws terminal = nested mws terminal.
Proof. unfold build_chain. rewrite wrap_down_take by done. by rewrite firstn_all. Qed.

Lemma logging_chain_transparent mws handler env r :
  only_logging mws →
  response (nested mws handler env r) = response (handler env r)
  ∧ spawned (nested mws handler env r) = spawned (handler env r).
Proof.
  induction 1 as [|mw mws -> _ IH]; [done|]. simpl. exact IH.
Qed.

Lemma reachable_installed s handler :
  reachable s → installed s = Some handler →
  ∃ mws, only_logging mws ∧ handler = nested mws mux.
Proof.
  induction 1 as [|cPath cMethod cMessage cDesc s _ IH|cName cEnabled s _ IH|s Hs _ _].
  - done.
  - by rewrite RegisterRoute_installed.
  - by rewrite RegisterMiddleware_installed.
  - simpl. intros [= <-]. exists (middlewares s).
    split; [by apply reachable_only_logging | apply build_chain_nested].
Qed.

(** A running server answers every request, and what the client receives
    (and whether a task is started) is decided by the mux alone. *)
Lemma serve_io_running s rng now err r :
  reachable s → installed s ≠ None →
  ∃ o, serve_io s rng now err r = Some o
       ∧ response o = response (mux (the_env_io s rng now err) r)
       ∧ spawned o = spawned (mux (the_env_io s rng now err) r).
Proof.
  intros Hs Hrun. unfold serve_io.
  destruct (installed s) as [handler|] eqn:Hi; [|done].
  destruct (reachable_installed _ _ Hs Hi) as (mws & Hlog & ->).
  eexists. split; [done|]. by apply logging_chain_transparent.
Qed.

Lemma serve_running s rng now r :
  reachable s → installed s ≠ None →
  ∃ o, serve s rng now r = Some o
       ∧ response o = response (mux (the_env s rng now) r)
       ∧ spawned o = spawned (mux (the_env s rng now) r).
Proof. apply serve_io_running. Qed.

End Chain.

(** C7. The handler installed by [StartServer] is the nested composition
    [wrappers[0](wrappers[1](...(mux)))] of the middleware sequence as it is
    when the server starts, the first registered middleware outermost; a
    middleware registered afterwards extends the sequence but leaves the
    installed handler as it was built. *)
Theorem installed_chain_is_nested_and_frozen {lib : CaseMapping} (s : State) :
  installed (StartServer s) = Some (nested (middlewares s) mux)
  ∧ (∀ w0 w1 w2 terminal, build_chain [w0; w1; w2] terminal = w0 (w1 (w2 terminal)))
  ∧ (∀ cName cEnabled,
       installed (RegisterMiddleware cName cEnabled (StartServer s))
       = installed (StartServer s))
  ∧ middlewares (RegisterMiddleware (Some "logging") 1 (StartServer s))
    = middlewares s ++ [loggingMiddleware].
Proof.
  split; [|split; [|split]].
  - simpl. by rewrite build_chain_nested.
  - done.
  - intros. apply RegisterMiddleware_installed.
  - done.
Qed.

(** ** The dispatcher *)

Section Dispatcher.

Context {lib : CaseMapping}.

Lemma mux_dispatch env r :
  ServeMux.route r = ServeMux.ToDispatcher → mux env r = dispatcher env r.
Proof. intros H. unfold mux. by rewrite H. Qed.

Lemma range_elem (rng : list (string * RouteInfo.t)) (m : gmap string RouteInfo.t) k rt :
  rng ≡ₚ map_to_list m → (k, rt) ∈ rng ↔ m !! k = Some rt.
Proof. intros ->. apply elem_of_map_to_list. Qed.

Lemma supported_method_absent path rng :
  (∀ k rt, (k, rt) ∈ rng → RouteInfo.Path rt ≠ path) →
  supported_method path rng = EmptyString.
Proof.
  induction rng as [|[k rt] rng IH]; intros H; simpl; [done|].
  destruct (String.eqb_spec (RouteInfo.Path rt) path) as [Heq|_].
  - exfalso. apply (H k rt); [left | done].
  - apply IH. intros k' rt' Hin. apply (H k' rt'). by right.
Qed.

Lemma supported_method_present path rng :
  (∃ k rt, (k, rt) ∈ rng ∧ RouteInfo.Path rt = path) →
  ∃ k rt, (k, rt) ∈ rng ∧ RouteInfo.Path rt = path
          ∧ supported_method path rng = RouteInfo.Method rt.
Proof.
  induction rng as [|[k rt] rng IH]; intros (k0 & rt0 & Hin & Hp); simpl.
  - by apply elem_of_nil in Hin.
  - destruct (String.eqb_spec (RouteInfo.Path rt) path) as [Heq|Hne].
    + exists k, rt. split; [left | done].
    + apply elem_of_cons in Hin as [[= -> ->]|Hin]; [done|].
      destruct IH as (k1 & rt1 & Hin1 & Hp1 & Hm1); [by exists k0, rt0|].
      exists k1, rt1. split; [by right | done].
Qed.

Lemma not_found_message_plain method path :
  not_found_message method path EmptyString
  = "Route not found for " +:+ method +:+ " " +:+ path.
Proof. done. Qed.

Lemma not_found_message_hint method path supported :
  supported ≠ EmptyString →
  not_found_message method path supported
  = ("Route not found for " +:+ method +:+ " " +:+ path)
      +:+ " - Try using method " +:+ supported.
Proof.
  intros H. unfold not_found_message.
  by destruct (String.eqb_spec supported EmptyString).
Qed.

Lemma literal_swagger_match rest :
  ServeMux.match_path ("/swagger/" +:+ rest) = ServeMux.ToFileServer.
Proof. reflexivity. Qed.

Lemma literal_swagger_target r :
  HasPrefix (Request.EscapedPath r) "/swagger/" = true →
  (Request.Method r = "CONNECT" ∨ ServeMux.canonical (Request.EscapedPath r) = true) →
  ServeMux.route r = ServeMux.ToFileServer.
Proof.
  destruct r as [method path remote]. cbn [Request.Method Request.EscapedPath].
  intros [rest ->]%prefix_split Hclean. unfold ServeMux.route.
  cbn [Request.Method Request.EscapedPath]. rewrite literal_swagger_match.
  replace (String.eqb ("/swagger/" +:+ rest) "*") with false by done.
  destruct Hclean as [-> | ->]; [done|]. by rewrite andb_false_r.
Qed.

Lemma literal_swagger_not_dispatched r :
  HasPrefix (Request.EscapedPath r) "/swagger/" = true →
  ServeMux.route r = ServeMux.ToFileServer ∨ ServeMux.route r = ServeMux.ToRedirect.
Proof.
  destruct r as [method path remote]. cbn [Request.EscapedPath].
  intros [rest ->]%prefix_split. unfold ServeMux.route.
  cbn [Request.Method Request.EscapedPath]. rewrite literal_swagger_match.
  replace (String.eqb ("/swagger/" +:+ rest) "*") with false by done.
  destruct (negb (String.eqb method "CONNECT") && negb _); [by right | by left].
Qed.

Lemma openapi_target r :
  Request.EscapedPath r = "/openapi.json" → ServeMux.route r = ServeMux.ToServeOpenAPI.
Proof.
  destruct r as [method path remote]. cbn [Request.EscapedPath]. intros ->.
  unfold ServeMux.route. cbn [Request.Method Request.EscapedPath].
  replace (String.eqb "/openapi.json" "*") with false by done.
  replace (ServeMux.canonical "/openapi.json") with true by done.
  by rewrite andb_false_r.
Qed.

(** What [encoding/json] writes for the response of a matched request. *)
Lemma marshal_success route now :
  marshal_ApiResponse (success_response route (task_id now))
  = success_envelope (json_string (RouteInfo.Message route)) (task_id now).
Proof.
  unfold marshal_ApiResponse, marshal_TaskResponse, success_response, success_envelope.
  cbn [ApiResponse.Message ApiResponse.BackgroundTask TaskResponse.Message TaskResponse.TaskID].
  rewrite (json_string_ascii (task_id now)) by apply ascii_text_task_id.
  rewrite (json_string_ascii ("Task started in background: " +:+ task_id now)); [done|].
  apply ascii_text_append; [done | apply ascii_text_task_id].
Qed.

Lemma dispatcher_hit env r route :
  env_routes env !! (Request.Path r +:+ Request.Method r) = Some route →
  env_encode_error env = None →
  dispatcher env r
  = {| response := Reply 200 "application/json"
                     (BodyJSON (success_envelope (json_string (RouteInfo.Message route))
                                  (task_id (env_now env))));
       logged := [Line ("Route found for key: " +:+ (Request.Path r +:+ Request.Method r)
                        +:+ ", serving response")];
       spawned := Some (task_id (env_now env)) |}.
Proof. intros H He. unfold dispatcher. by rewrite H, He, marshal_success. Qed.

Lemma dispatcher_hit_error env r route err :
  env_routes env !! (Request.Path r +:+ Request.Method r) = Some route →
  env_encode_error env = Some err →
  dispatcher env r
  = {| response := http_Error (error_envelope "Internal server error") 500;
       logged := [Line ("Route found for key: " +:+ (Request.Path r +:+ Request.Method r)
                        +:+ ", serving response");
                  Line ("Error encoding response: " +:+ err)];
       spawned := None |}.
Proof. intros H He. unfold dispatcher. by rewrite H, He. Qed.

Lemma dispatcher_miss env r :
  env_routes env !! (Request.Path r +:+ Request.Method r) = None →
  dispatcher env r
  = {| response := http_Error
         (error_envelope (not_found_message (Request.Method r) (Request.Path r)
                            (supported_method (Request.Path r) (env_range env)))) 404;
       logged := [Line ("Route not found for key: "
                        +:+ (Request.Path r +:+ Request.Method r) +:+ " (Path: "
                        +:+ Request.Path r +:+ ", Method: " +:+ Request.Method r +:+ ")")];
       spawned := None |}.
Proof. intros H. unfold dispatcher. by rewrite H. Qed.

End Dispatcher.

(** C1 (amended). For every route in the registry of a running server and
    every request that the mux hands to the dynamic dispatcher, if the
    request's path followed by its method is the key of the route, then,
    when the response is written without error, the client receives status
    200 and the success envelope carrying the route's message as
    [encoding/json] writes it (bytes that are not valid UTF-8 replaced by
    U+FFFD) and the task id task-<nanosecond timestamp>, and a background
    task with that id is started; when [Encode] fails the handler answers
    500 and starts no task. *)
Theorem registered_key_served {lib : CaseMapping} s rng now err r route :
  reachable s → installed s ≠ None →
  ServeMux.route r = ServeMux.ToDispatcher →
  routes s !! (Request.Path r +:+ Request.Method r) = Some route →
  ∃ o, serve_io s rng now err r = Some o
       ∧ match err with
         | None =>
             response o = Reply 200 "application/json"
                            (BodyJSON (success_envelope (json_string (RouteInfo.Message route))
                                         ("task-" +:+ decimal now)))
             ∧ spawned o = Some ("task-" +:+ decimal now)
         | Some _ =>
             response o = http_Error (error_envelope "Internal server error") 500
             ∧ spawned o = None
         end.
Proof.
  intros Hs Hrun Hmux Hkey.
  destruct (serve_io_running s rng now err r Hs Hrun) as (o & Ho & Hresp & Hsp).
  exists o. split; [done|].
  rewrite Hresp, Hsp, (mux_dispatch _ _ Hmux). destruct err as [e|].
  - by rewrite (dispatcher_hit_error (the_env_io s rng now (Some e)) r route e Hkey).
  - by rewrite (dispatcher_hit (the_env_io s rng now None) r route Hkey).
Qed.

(** The scenario of the specification: GET /hello on the server that
    registered ("/hello", "GET", "Hi there", "greets the caller"). *)
Lemma registered_key_served_witness :
  (reachable hello_server ∧ installed hello_server ≠ None
   ∧ ServeMux.route (client "GET" "/hello") = ServeMux.ToDispatcher
   ∧ routes hello_server !! ("/hello" +:+ "GET")
     = Some (new_route "/hello" "GET" "Hi there" "greets the caller"))
  ∧ ∃ o, serve_io hello_server (range_of hello_server) 1700000000000000000 None
           (client "GET" "/hello") = Some o
         ∧ response o = Reply 200 "application/json"
                          (BodyJSON (success_envelope "Hi there" "task-1700000000000000000"))
         ∧ spawned o = Some "task-1700000000000000000".
Proof.
  assert (reachable hello_server) as Hs
    by (apply reach_start; [apply reach_route, reach_init | reflexivity]).
  assert (installed hello_server ≠ None) as Hrun by discriminate.
  assert (ServeMux.route (client "GET" "/hello") = ServeMux.ToDispatcher) as Hmux
    by reflexivity.
  assert (routes hello_server !! ("/hello" +:+ "GET")
          = Some (new_route "/hello" "GET" "Hi there" "greets the caller")) as Hkey
    by (vm_compute; reflexivity).
  split; [by repeat split|].
  exact (registered_key_served hello_server (range_of hello_server)
           1700000000000000000 None (client "GET" "/hello") _ Hs Hrun Hmux Hkey).
Defined.

(** C1, as stated, fails in three ways.  A route registered under
    /openapi.json is in the registry, but the request with exactly its path
    and method is answered with the API document.  A route whose message is
    not valid UTF-8 is served with the offending byte replaced by U+FFFD,
    not with its message.  And when the response cannot be written the
    handler answers 500 and starts no task. *)
Lemma registered_openapi_path_not_served :
  (routes shadowed_server !! ("/openapi.json" +:+ "GET")
   = Some (new_route "/openapi.json" "GET" "shadowed" "a route")
   ∧ (response <$> serve shadowed_server (range_of shadowed_server) 1
                     (client "GET" "/openapi.json"))
     = Some (Reply 200 "application/json"
               (BodyDoc (openapi_document (range_of shadowed_server))))
   ∧ (response <$> serve shadowed_server (range_of shadowed_server) 1
                     (client "GET" "/openapi.json"))
     ≠ Some (Reply 200 "application/json" (BodyJSON (success_envelope "shadowed" "task-1"))))
  ∧ (routes garbled_server !! ("/hello" +:+ "GET")
     = Some (new_route "/hello" "GET" garbled "a route")
     ∧ (response <$> serve garbled_server (range_of garbled_server) 1 (client "GET" "/hello"))
       = Some (Reply 200 "application/json"
                 (BodyJSON (success_envelope ("a" +:+ replacement +:+ "b") "task-1")))
     ∧ "a" +:+ replacement +:+ "b" ≠ garbled)
  ∧ (response <$> serve_io hello_server (range_of hello_server) 1 (Some "broken pipe")
                    (client "GET" "/hello"))
    = Some (http_Error (error_envelope "Internal server error") 500)
  ∧ (spawned <$> serve_io hello_server (range_of hello_server) 1 (Some "broken pipe")
                   (client "GET" "/hello"))
    = Some None.
Proof.
  split; [split; [by vm_compute|split; [reflexivity|discriminate]]|].
  split; [split; [by vm_compute|split; [reflexivity|discriminate]]|].
  split; reflexivity.
Qed.

(** C10 (amended). On a running server a request whose path, as sent, is
    /openapi.json or begins with /swagger/ never reaches the dynamic
    dispatcher, whatever routes are registered: the response is never a
    success envelope and no background task is started; /openapi.json is
    answered with the API document when it is written without error, and a
    path under /swagger/ that is canonical (or comes with CONNECT) is
    answered by the static file handler. *)
Theorem reserved_paths_bypass_dispatcher {lib : CaseMapping} s rng now err r :
  reachable s → installed s ≠ None →
  Request.EscapedPath r = "/openapi.json"
  ∨ HasPrefix (Request.EscapedPath r) "/swagger/" = true →
  ServeMux.route r ≠ ServeMux.ToDispatcher
  ∧ ∃ o, serve_io s rng now err r = Some o
         ∧ spawned o = None
         ∧ (Request.EscapedPath r = "/openapi.json" → err = None →
            response o = Reply 200 "application/json" (BodyDoc (openapi_document rng)))
         ∧ (HasPrefix (Request.EscapedPath r) "/swagger/" = true →
            Request.Method r = "CONNECT"
            ∨ ServeMux.canonical (Request.EscapedPath r) = true →
            response o = FileServed r)
         ∧ (∀ status content_type j, response o ≠ Reply status content_type (BodyJSON j)).
Proof.
  intros Hs Hrun Hpath.
  destruct (serve_io_running s rng now err r Hs Hrun) as (o & Ho & Hresp & Hsp).
  unfold mux in Hresp, Hsp. destruct Hpath as [Hp|Hp].
  - pose proof (openapi_target r Hp) as Ht. rewrite Ht in Hresp, Hsp.
    split; [by rewrite Ht|]. exists o. split; [done|].
    unfold ServeOpenAPI in Hresp, Hsp. cbn [env_encode_error env_range the_env_io] in Hresp, Hsp.
    split; [by destruct err|]. split; [by intros _ ->|]. split.
    + intros Hpre. rewrite Hp in Hpre. discriminate.
    + intros ???. rewrite Hresp. by destruct err.
  - assert (Request.EscapedPath r ≠ "/openapi.json") as Hne.
    { intros Heq. rewrite Heq in Hp. discriminate. }
    destruct (literal_swagger_not_dispatched r Hp) as [Ht|Ht].
    + rewrite Ht in Hresp, Hsp. split; [by rewrite Ht|]. exists o. split; [done|].
      split; [done|]. split; [done|]. split; [done|]. intros ???. by rewrite Hresp.
    + split; [by rewrite Ht|]. exists o. split; [done|]. rewrite Ht in Hresp, Hsp.
      split; [done|]. split; [done|]. split.
      * intros _ Hclean. rewrite (literal_swagger_target r Hp Hclean) in Ht. discriminate.
      * intros ???. by rewrite Hresp.
Qed.

(** GET /openapi.json on a server where a route was registered under that
    very path. *)
Lemma reserved_paths_bypass_dispatcher_witness :
  (reachable shadowed_server ∧ installed shadowed_server ≠ None
   ∧ (Request.EscapedPath (client "GET" "/openapi.json") = "/openapi.json"
      ∨ HasPrefix (Request.EscapedPath (client "GET" "/openapi.json")) "/swagger/" = true))
  ∧ ServeMux.route (client "GET" "/openapi.json") ≠ ServeMux.ToDispatcher
  ∧ ∃ o, serve_io shadowed_server (range_of shadowed_server) 1 None
           (client "GET" "/openapi.json") = Some o
         ∧ response o = Reply 200 "application/json"
                          (BodyDoc (openapi_document (range_of shadowed_server))).
Proof.
  assert (reachable shadowed_server) as Hs
    by (apply reach_start; [apply reach_route, reach_init | reflexivity]).
  assert (installed shadowed_server ≠ None) as Hrun by discriminate.
  split; [split; [done|split; [done|by left]]|].
  destruct (reserved_paths_bypass_dispatcher shadowed_server (range_of shadowed_server) 1
              None (client "GET" "/openapi.json") Hs Hrun (or_introl eq_refl))
    as (Hmux & o & Ho & _ & Hdoc & _).
  split; [done|]. exists o. split; [done|]. by apply Hdoc.
Defined.

(** C10, as stated, fails for a path that begins with /swagger/ only once
    decoded: with a route registered for GET /swagger/x.txt, the request
    GET /swagger%2Fx.txt has the URL path /swagger/x.txt, is handed to the
    dispatcher, gets the route's envelope and starts a task. *)
Lemma escaped_slash_reaches_dispatcher :
  Request.Path (client "GET" "/swagger%2Fx.txt") = "/swagger/x.txt"
  ∧ HasPrefix (Request.Path (client "GET" "/swagger%2Fx.txt")) "/swagger/" = true
  ∧ ServeMux.route (client "GET" "/swagger%2Fx.txt") = ServeMux.ToDispatcher
  ∧ serve swagger_route_server (range_of swagger_route_server) 1
      (client "GET" "/swagger%2Fx.txt")
    = Some {| response := Reply 200 "application/json"
                            (BodyJSON (success_envelope "from the route" "task-1"));
              logged := [Line "Route found for key: /swagger/x.txtGET, serving response"];
              spawned := Some "task-1" |}.
Proof. repeat split; reflexivity. Qed.

(** C5 (amended). On a running server, a request that the mux hands to the
    dynamic dispatcher and whose key, path followed by method, is not in the
    registry is answered with status 404 and the text
    {"error": "<message>"}: when no route is registered for the path the
    message is "Route not found for <method> <path>"; when some route is
    registered for the path and the routes on that path have non-empty
    methods, the message continues with " - Try using method <m>", <m> being
    the method of a route registered for that path and different from the
    request's method.  No background task is started. *)
Theorem unregistered_key_not_found {lib : CaseMapping} s rng now r :
  reachable s → installed s ≠ None →
  rng ≡ₚ map_to_list (routes s) →
  ServeMux.route r = ServeMux.ToDispatcher →
  routes s !! (Request.Path r +:+ Request.Method r) = None →
  ∃ o, serve s rng now r = Some o
       ∧ spawned o = None
       ∧ (∃ message, response o = Reply 404 "text/plain; charset=utf-8"
                         (BodyText (error_envelope message +:+ newline)))
       ∧ ((∀ k rt, routes s !! k = Some rt → RouteInfo.Path rt ≠ Request.Path r) →
          response o = http_Error
            (error_envelope ("Route not found for " +:+ Request.Method r +:+ " "
                             +:+ Request.Path r)) 404)
       ∧ ((∃ k rt, routes s !! k = Some rt ∧ RouteInfo.Path rt = Request.Path r) →
          (∀ k rt, routes s !! k = Some rt → RouteInfo.Path rt = Request.Path r →
                   RouteInfo.Method rt ≠ EmptyString) →
          ∃ k rt, routes s !! k = Some rt
                  ∧ RouteInfo.Path rt = Request.Path r
                  ∧ RouteInfo.Method rt ≠ Request.Method r
                  ∧ response o = http_Error
                      (error_envelope (("Route not found for " +:+ Request.Method r +:+ " "
                                        +:+ Request.Path r)
                                       +:+ " - Try using method " +:+ RouteInfo.Method rt))
                      404).
Proof.
  intros Hs Hrun Hrng Hmux Hkey.
  destruct (serve_running s rng now r Hs Hrun) as (o & Ho & Hresp & Hsp).
  rewrite (mux_dispatch _ _ Hmux), dispatcher_miss in Hresp, Hsp by done.
  cbn [response spawned env_range the_env the_env_io] in Hresp, Hsp.
  exists o. split; [done|]. split; [done|]. split; [by eexists|]. split.
  - intros Hnone. rewrite Hresp, supported_method_absent; [done|].
    intros k rt Hin%(range_elem _ _ _ _ Hrng). by apply (Hnone k rt).
  - intros (k0 & rt0 & Hin0 & Hp0) Hnonempty.
    destruct (supported_method_present (Request.Path r) rng) as (k & rt & Hin & Hp & Hm).
    { exists k0, rt0. by rewrite (range_elem _ _ _ _ Hrng). }
    apply (range_elem _ _ _ _ Hrng) in Hin.
    exists k, rt. split; [done|]. split; [done|]. split.
    + intros Heq. destruct (reachable_routes_wf s Hs k rt Hin) as (p & m & g & d & -> & ->).
      simpl in Hp, Heq. rewrite <- Hp, <- Heq in Hkey. congruence.
    + rewrite Hresp, Hm. rewrite not_found_message_hint; [done|].
      by apply (Hnonempty k rt).
Qed.

(** The scenario of the specification: POST /hello when only GET /hello is
    registered. *)
Lemma unregistered_key_not_found_witness :
  (reachable hello_server ∧ installed hello_server ≠ None
   ∧ range_of hello_server ≡ₚ map_to_list (routes hello_server)
   ∧ ServeMux.route (client "POST" "/hello") = ServeMux.ToDispatcher
   ∧ routes hello_server !! ("/hello" +:+ "POST") = None)
  ∧ ∃ o, serve hello_server (range_of hello_server) 1 (client "POST" "/hello") = Some o
         ∧ response o = http_Error
             (error_envelope "Route not found for POST /hello - Try using method GET") 404.
Proof.
  assert (reachable hello_server) as Hs
    by (apply reach_start; [apply reach_route, reach_init | reflexivity]).
  assert (installed hello_server ≠ None) as Hrun by discriminate.
  assert (routes hello_server !! ("/hello" +:+ "POST") = None) as Hkey
    by (vm_compute; reflexivity).
  split; [by repeat split|].
  destruct (unregistered_key_not_found hello_server (range_of hello_server) 1
              (client "POST" "/hello") Hs Hrun (reflexivity _) eq_refl Hkey)
    as (o & Ho & _ & _ & _ & Hhint).
  exists o. split; [done|].
  unfold serve in Ho. simpl in Ho. injection Ho as <-. reflexivity.
Defined.

(** C5, as stated, fails in three ways: an unregistered GET /openapi.json
    is answered 200 with the API document; with only ("/a", "BGET")
    registered, GET /aB hits the key "/aBGET" and is answered 200 with that
    route's envelope; with only ("/hello", "") registered, POST /hello gets
    the 404 without a method hint. *)
Lemma unregistered_pair_not_always_404 :
  (response <$> serve (StartServer init) [] 1 (client "GET" "/openapi.json"))
  = Some (Reply 200 "application/json" (BodyDoc (openapi_document [])))
  ∧ (routes collision_server = {[ "/aBGET" := new_route "/a" "BGET" "from /a" "a route" ]}
     ∧ (response <$> serve collision_server (range_of collision_server) 1 (client "GET" "/aB"))
       = Some (Reply 200 "application/json"
                 (BodyJSON (success_envelope "from /a" "task-1"))))
  ∧ (routes empty_method_server
     = {[ "/hello" := new_route "/hello" EmptyString "Hi there" "a route" ]}
     ∧ (response <$> serve empty_method_server (range_of empty_method_server) 1
                       (client "POST" "/hello"))
       = Some (http_Error (error_envelope "Route not found for POST /hello") 404)).
Proof.
  split; [reflexivity|]. split; (split; [by vm_compute | reflexivity]).
Qed.

(** C4 (amended). The dispatcher looks the request up under its path
    followed by its method exactly as received; letter case is folded only
    by [RegisterRoute].  So a route registered with a method in any letter
    case is matched by the request whose method is the uppercase form (and,
    when the response is written without error, served the route's message
    as [encoding/json] writes it), while a request for the same path whose
    method is anything else, the same word in another letter case included,
    is not matched to that route: unless its own key was in the registry
    before, it is answered 404. *)
Theorem method_case_folded_only_at_registration {lib : CaseMapping}
    s rng now err r path m message desc :
  reachable s → installed s ≠ None →
  ServeMux.route r = ServeMux.ToDispatcher →
  Request.Path r = path →
  let s' := RegisterRoute (Some path) (Some m) (Some message) (Some desc) s in
  (Request.Method r = ToUpper m →
   routes s' !! (Request.Path r +:+ Request.Method r)
   = Some (new_route path (ToUpper m) message desc)
   ∧ ∃ o, serve_io s' rng now None r = Some o
          ∧ response o = Reply 200 "application/json"
                           (BodyJSON (success_envelope (json_string message) (task_id now))))
  ∧ (Request.Method r ≠ ToUpper m →
     routes s !! (path +:+ Request.Method r) = None →
     routes s' !! (Request.Path r +:+ Request.Method r) = None
     ∧ ∃ o, serve_io s' rng now err r = Some o
            ∧ spawned o = None
            ∧ ∃ text, response o = Reply 404 "text/plain; charset=utf-8" (BodyText text)).
Proof.
  intros Hs Hrun Hmux Hpath s'.
  assert (reachable s') as Hs' by by apply reach_route.
  assert (installed s' ≠ None) as Hrun' by by (unfold s'; rewrite RegisterRoute_installed).
  split; intros Hm.
  - assert (routes s' !! (Request.Path r +:+ Request.Method r)
            = Some (new_route path (ToUpper m) message desc)) as Hkey.
    { unfold s'. rewrite RegisterRoute_routes, Hpath, Hm. apply lookup_insert_eq. }
    split; [done|].
    destruct (serve_io_running s' rng now None r Hs' Hrun') as (o & Ho & Hresp & _).
    rewrite (mux_dispatch _ _ Hmux) in Hresp.
    exists o. split; [done|].
    by rewrite Hresp, (dispatcher_hit (the_env_io s' rng now None) r _ Hkey).
  - intros Hold.
    assert (routes s' !! (Request.Path r +:+ Request.Method r) = None) as Hkey.
    { unfold s'. rewrite RegisterRoute_routes, Hpath, lookup_insert_ne; [done|].
      intros Heq%append_inv_head. by apply Hm. }
    split; [done|].
    destruct (serve_io_running s' rng now err r Hs' Hrun') as (o & Ho & Hresp & Hsp).
    rewrite (mux_dispatch _ _ Hmux) in Hresp, Hsp.
    exists o. split; [done|].
    rewrite Hresp, Hsp, (dispatcher_miss (the_env_io s' rng now err) r Hkey).
    split; [done|]. by eexists.
Qed.

(** GET /hello is registered on a running server; the request
    "get /hello" is answered 404. *)
Lemma method_case_folded_only_at_registration_witness :
  (reachable (StartServer init) ∧ installed (StartServer init) ≠ None
   ∧ ServeMux.route (client "get" "/hello") = ServeMux.ToDispatcher
   ∧ Request.Path (client "get" "/hello") = "/hello"
   ∧ Request.Method (client "get" "/hello") ≠ ToUpper "GET"
   ∧ routes (StartServer init) !! ("/hello" +:+ "get") = None)
  ∧ ∃ o, serve_io (RegisterRoute (Some "/hello") (Some "GET") (Some "Hi there")
                     (Some "greets the caller") (StartServer init))
           [] 1 None (client "get" "/hello") = Some o
         ∧ spawned o = None
         ∧ ∃ text, response o = Reply 404 "text/plain; charset=utf-8" (BodyText text).
Proof.
  assert (reachable (StartServer init)) as Hs
    by (apply reach_start; [apply reach_init | reflexivity]).
  assert (installed (StartServer init) ≠ None) as Hrun by discriminate.
  assert (Request.Method (client "get" "/hello") ≠ ToUpper "GET") as Hm by discriminate.
  assert (routes (StartServer init) !! ("/hello" +:+ "get") = None) as Hkey by reflexivity.
  split; [by repeat split|].
  exact (proj2 (proj2 (method_case_folded_only_at_registration (StartServer init) [] 1 None
                         (client "get" "/hello") "/hello" "GET" "Hi there"
                         "greets the caller" Hs Hrun eq_refl eq_refl) Hm Hkey)).
Defined.

(** C4, as stated, fails: with GET /hello registered, the request
    "get /hello" is looked up under "/helloget" and answered 404. *)
Lemma lowercase_request_method_not_matched :
  routes hello_server !! ("/hello" +:+ ToUpper "get")
  = Some (new_route "/hello" "GET" "Hi there" "greets the caller")
  ∧ (response <$> serve hello_server (range_of hello_server) 1 (client "get" "/hello"))
    = Some (http_Error
              (error_envelope "Route not found for get /hello - Try using method GET") 404).
Proof.
  split; [by vm_compute | reflexivity].
Qed.

(** ** Registration *)

(** C6 (amended). When the same path and method (the method up to letter
    case) are registered twice, the registry afterwards holds one entry under
    that key, the second registration's, exactly as if the first had never
    been made: path, method, message, description, parameter list and
    response table are the second's, and the entry count is what it was after
    the first registration.  A request for that key is then served, when the
    response is written without error, the second message as
    [encoding/json] writes it: ASCII text as registered, bytes that are not
    valid UTF-8 replaced by U+FFFD; when [Encode] fails it is served 500. *)
Theorem second_registration_wins {lib : CaseMapping} s path m1 m2 message1 desc1 message2 desc2 :
  ToUpper m1 = ToUpper m2 →
  let s1 := RegisterRoute (Some path) (Some m1) (Some message1) (Some desc1) s in
  let s2 := RegisterRoute (Some path) (Some m2) (Some message2) (Some desc2) s1 in
  (∃ rt, routes s2 !! (path +:+ ToUpper m2) = Some rt
         ∧ RouteInfo.Path rt = path
         ∧ RouteInfo.Method rt = ToUpper m2
         ∧ RouteInfo.Message rt = message2
         ∧ RouteInfo.Description rt = desc2
         ∧ RouteInfo.Parameters rt = []
         ∧ RouteInfo.Responses rt = {[ 200%Z := "Successful response" ]})
  ∧ routes s2 = routes (RegisterRoute (Some path) (Some m2) (Some message2) (Some desc2) s)
  ∧ size (routes s2) = size (routes s1)
  ∧ (∀ rng now r,
        Request.Path r = path → Request.Method r = ToUpper m2 →
        response (dispatcher (the_env_io s2 rng now None) r)
        = Reply 200 "application/json"
            (BodyJSON (success_envelope (json_string message2) (task_id now)))
        ∧ (ascii_text message2 = true →
           response (dispatcher (the_env_io s2 rng now None) r)
           = Reply 200 "application/json"
               (BodyJSON (success_envelope message2 (task_id now))))
        ∧ ∀ e, response (dispatcher (the_env_io s2 rng now (Some e)) r)
               = http_Error (error_envelope "Internal server error") 500).
Proof.
  intros Hm s1 s2.
  assert (routes s2 !! (path +:+ ToUpper m2)
          = Some (new_route path (ToUpper m2) message2 desc2)) as Hkey.
  { unfold s2. rewrite RegisterRoute_routes. apply lookup_insert_eq. }
  split; [by eexists|]. split; [|split].
  - unfold s2, s1. rewrite !RegisterRoute_routes, Hm. apply insert_insert_eq.
  - unfold s2, s1. rewrite !RegisterRoute_routes, Hm.
    by rewrite insert_insert_eq, !map_size_insert.
  - intros rng now r Hp Hmeth.
    assert (response (dispatcher (the_env_io s2 rng now None) r)
            = Reply 200 "application/json"
                (BodyJSON (success_envelope (json_string message2) (task_id now)))) as Hok.
    { rewrite (dispatcher_hit (the_env_io s2 rng now None) r
                 (new_route path (ToUpper m2) message2 desc2)); [done| |done].
      cbn [env_routes the_env_io]. by rewrite Hp, Hmeth. }
    split; [done|]. split.
    + intros Hascii. by rewrite Hok, (json_string_ascii message2 Hascii).
    + intros e.
      rewrite (dispatcher_hit_error (the_env_io s2 rng now (Some e)) r
                 (new_route path (ToUpper m2) message2 desc2) e); [done| |done].
      cbn [env_routes the_env_io]. by rewrite Hp, Hmeth.
Qed.

(** "/hello" registered as "get" and then as "GET". *)
Lemma second_registration_wins_witness :
  ToUpper "get" = ToUpper "GET"
  ∧ ∃ rt, routes (RegisterRoute (Some "/hello") (Some "GET") (Some "second") (Some "later")
                    (RegisterRoute (Some "/hello") (Some "get") (Some "first")
                       (Some "earlier") init))
          !! ("/hello" +:+ ToUpper "GET") = Some rt
          ∧ RouteInfo.Path rt = "/hello"
          ∧ RouteInfo.Method rt = ToUpper "GET"
          ∧ RouteInfo.Message rt = "second"
          ∧ RouteInfo.Description rt = "later"
          ∧ RouteInfo.Parameters rt = []
          ∧ RouteInfo.Responses rt = {[ 200%Z := "Successful response" ]}.
Proof.
  split; [reflexivity|].
  exact (proj1 (second_registration_wins init "/hello" "get" "GET" "first" "earlier"
                  "second" "later" eq_refl)).
Defined.

(** C6, as stated, fails for the served message: "/hello" is registered as
    "get" with the message "first" and then as "GET" with a message that is
    not valid UTF-8 ("a", the byte 255, "b").  The registry holds the second
    message, but the request is served "a", U+FFFD, "b"; and when the
    response cannot be written it is served 500. *)
Lemma second_message_served_altered :
  RouteInfo.Message <$> (routes twice_registered !! ("/hello" +:+ "GET")) = Some garbled
  ∧ response (dispatcher (the_env_io twice_registered (range_of twice_registered) 1 None)
                (client "GET" "/hello"))
    = Reply 200 "application/json"
        (BodyJSON (success_envelope ("a" +:+ replacement +:+ "b") "task-1"))
  ∧ "a" +:+ replacement +:+ "b" ≠ garbled
  ∧ response (dispatcher (the_env_io twice_registered (range_of twice_registered) 1
                            (Some "broken pipe"))
                (client "GET" "/hello"))
    = http_Error (error_envelope "Internal server error") 500.
Proof.
  split; [by vm_compute|]. split; [reflexivity|]. split; [discriminate | reflexivity].
Qed.

(** C9 (amended). A call to [RegisterRoute] in which one of the four
    pointers is nil logs the diagnostic and changes nothing else: the
    registry, the middleware sequence and the installed handler are as
    before.  A call with four non-nil pointers is never rejected, empty
    strings included: the route is stored under the path followed by the
    uppercased method. *)
Theorem nil_pointer_rejected_empty_string_accepted {lib : CaseMapping} s :
  (∀ cPath cMethod cMessage cDesc,
     cPath = None ∨ cMethod = None ∨ cMessage = None ∨ cDesc = None →
     let s' := RegisterRoute cPath cMethod cMessage cDesc s in
     routes s' = routes s
     ∧ middlewares s' = middlewares s
     ∧ installed s' = installed s
     ∧ log s' = log s ++ [Line "Error: One or more parameters are nil in RegisterRoute"])
  ∧ (∀ path m message desc,
       let s' := RegisterRoute (Some path) (Some m) (Some message) (Some desc) s in
       routes s' !! (path +:+ ToUpper m) = Some (new_route path (ToUpper m) message desc)
       ∧ log s' = log s ++
           [Line ("Registering route: " +:+ path +:+ " for method: " +:+ ToUpper m
                  +:+ " with message: " +:+ message);
            Line ("Route registered with key: " +:+ path +:+ ToUpper m)]).
Proof.
  split.
  - intros cPath cMethod cMessage cDesc Hnil s'. unfold s'.
    by rewrite (RegisterRoute_nil _ _ _ _ _ Hnil).
  - intros path m message desc s'. unfold s'. rewrite RegisterRoute_routes.
    split; [apply lookup_insert_eq|]. simpl. by rewrite <- app_assoc.
Qed.

(** A nil path pointer on a server that already has a route. *)
Lemma nil_pointer_rejected_empty_string_accepted_witness :
  (@None string = None ∨ Some "GET" = None ∨ Some "Hi" = None ∨ Some "greets" = None)
  ∧ routes (RegisterRoute None (Some "GET") (Some "Hi") (Some "greets") hello_server)
    = routes hello_server.
Proof.
  split; [by left|].
  exact (proj1 (proj1 (nil_pointer_rejected_empty_string_accepted hello_server)
                  None (Some "GET") (Some "Hi") (Some "greets") (or_introl eq_refl))).
Defined.

(** C9, as stated, fails for empty strings: the call with four empty
    strings is not a no-op, it stores a route under the empty key. *)
Lemma empty_strings_registered :
  routes (RegisterRoute (Some EmptyString) (Some EmptyString) (Some EmptyString)
            (Some EmptyString) init)
  = {[ EmptyString := new_route EmptyString EmptyString EmptyString EmptyString ]}
  ∧ routes (RegisterRoute (Some EmptyString) (Some EmptyString) (Some EmptyString)
              (Some EmptyString) init)
    ≠ routes init.
Proof.
  split; [by vm_compute|].
  intros H. apply (f_equal (lookup EmptyString)) in H. by vm_compute in H.
Qed.

(** ** The API description document *)

Section Document.

Context {lib : CaseMapping}.

Implicit Types (paths : gmap string (gmap string Operation.t)).
Implicit Types (rng : list (string * RouteInfo.t)).















End Document.




(** ** Background tasks *)

Section TaskPool.

Lemma run_app evs1 evs2 st : run (evs1 ++ evs2) st = run evs1 st ≫= run evs2.
Proof.
  revert st. induction evs1 as [|ev evs1 IH]; intros st; simpl; [done|].
  destruct (step ev st) as [st1|]; simpl; [apply IH | done].
Qed.

(** One dispatch on an empty pool followed by the new task's send: the task
    gets a channel of its own and enters the timed section. *)
Lemma spawn_then_send st taskID :
  pool st = [] → length (chans st) = length (tasks st) →
  ∃ st', run [Spawn taskID; Step (length (tasks st)) MSend] st = Some st'
         ∧ pool st' = []
         ∧ length (chans st') = length (tasks st')
         ∧ length (tasks st') = S (length (tasks st))
         ∧ running st' = S (running st).
Proof.
  intros Hpool Hlen. destruct st as [pl chs tks c lg]. simpl in *. subst pl.
  exists {| pool := []; chans := chs ++ [1];
            tasks := tks ++ [mkTask taskID (length chs) Running];
            cancelled := c;
            task_log := lg ++ [Line ("Starting background task " +:+ taskID)] |}.
  split.
  - unfold taskPool_Get. cbn [pool chans tasks cancelled task_log mbind option_bind].
    rewrite list_lookup_middle by done.
    cbn [mbind option_bind task_chan task_name task_pc].
    rewrite list_lookup_middle by done.
    cbn [mbind option_bind TaskManager].
    replace (Nat.ltb 0 capacity) with true by done. cbn [mbind option_bind].
    do 2 f_equal.
    + rewrite (insert_app_r_alt _ _ _ _ (Nat.le_refl _)). by rewrite Nat.sub_diag.
    + rewrite (insert_app_r_alt _ _ _ _ (Nat.le_refl _)). by rewrite Nat.sub_diag.
  - cbn [pool chans tasks]. unfold running. cbn [tasks].
    rewrite filter_app, !length_app, Hlen. simpl.
    split; [done|]. split; [done|]. split; lia.
Qed.

Lemma burst_runs n :
  ∃ st, run (burst n) tasks_init = Some st
        ∧ pool st = []
        ∧ length (chans st) = length (tasks st)
        ∧ length (tasks st) = n
        ∧ running st = n.
Proof.
  induction n as [|n (st & Hrun & Hpool & Hlen & Hn & Hr)]; [by exists tasks_init|].
  destruct (spawn_then_send st (task_id (Z.of_nat n)) Hpool Hlen)
    as (st' & Hrun' & Hpool' & Hlen' & Hn' & Hr').
  exists st'. cbn [burst]. rewrite run_app, Hrun. cbn [mbind option_bind].
  rewrite Hn in Hrun'. split; [done|]. split; [done|]. split; [done|]. split; lia.
Qed.

(** A task at its deferred receive on an empty channel has no move. *)
Lemma deferred_receive_blocked c taskID m :
  TaskManager c taskID m 0 AtDefer = None.
Proof. by destruct m. Qed.

Lemma late_task_stuck_step ev st st' :
  late_task_stuck st → step ev st = Some st' → late_task_stuck st'.
Proof.
  intros (Hpool & Ht & Hc & Hown) Hstep. destruct ev as [taskID|i m|]; simpl in Hstep.
  - unfold taskPool_Get in Hstep. rewrite Hpool in Hstep. injection Hstep as <-.
    cbn [pool tasks chans].
    pose proof (lookup_lt_Some _ _ _ Ht) as Hlt. pose proof (lookup_lt_Some _ _ _ Hc) as Hlc.
    unfold late_task_stuck. cbn [pool tasks chans].
    split; [done|]. split; [by rewrite lookup_app_l|]. split; [by rewrite lookup_app_l|].
    intros i t [Hi|[Hi Heq]]%lookup_app_Some Hch; [by apply (Hown i t)|].
    destruct (i - length (tasks st)) as [|?]; [|done].
    injection Heq as <-. simpl in Hch. lia.
  - destruct (tasks st !! i) as [t|] eqn:Hi; [|done]. simpl in Hstep.
    destruct (chans st !! task_chan t) as [b|] eqn:Hb; [|done]. simpl in Hstep.
    destruct (TaskManager (cancelled st) (task_name t) m b (task_pc t))
      as [[[b' pc'] lines]|] eqn:Hm; [|done].
    simpl in Hstep. injection Hstep as <-.
    unfold late_task_stuck. cbn [pool tasks chans].
    assert (i ≠ 0) as Hi0.
    { intros ->. rewrite Ht in Hi. injection Hi as <-.
      cbn [task_chan task_name task_pc] in Hb, Hm.
      rewrite Hc in Hb. injection Hb as <-. by rewrite deferred_receive_blocked in Hm. }
    assert (task_chan t ≠ 0) as Hc0 by (intros Heq; by apply Hi0, (Hown i t)).
    split; [done|]. split; [by rewrite list_lookup_insert_ne|].
    split; [by rewrite list_lookup_insert_ne|].
    intros j t' Hj Hch. destruct (decide (i = j)) as [<-|Hne].
    + rewrite list_lookup_insert_eq in Hj by by eapply lookup_lt_Some.
      injection Hj as <-. done.
    + rewrite list_lookup_insert_ne in Hj by done. by apply (Hown j t').
  - injection Hstep as <-. done.
Qed.

Lemma late_task_stuck_run evs st st' :
  late_task_stuck st → run evs st = Some st' → late_task_stuck st'.
Proof.
  revert st. induction evs as [|ev evs IH]; intros st Hst; simpl.
  - by intros [= <-].
  - destruct (step ev st) as [st1|] eqn:Hstep; [|done]. simpl.
    apply IH. by apply (late_task_stuck_step ev st).
Qed.

End TaskPool.

(** C2, evaluated on the code.  [taskPool] is never given a channel back,
    so every dispatch gets a new channel from [New]: after eleven matched
    requests for GET /hello and the send of each of their tasks, eleven
    tasks are inside the timed section at once, each alone on its channel,
    which is more than the capacity 10. *)
Theorem eleven_tasks_run_together :
  ∃ st, run (hello_spawns eleven_arrivals ++ sends 11) tasks_init = Some st
        ∧ running st = 11
        ∧ capacity < running st
        ∧ chans st = replicate 11 1
        ∧ pool st = [].
Proof.
  eexists. split; [vm_compute; reflexivity|].
  split; [reflexivity|]. split; [|split; reflexivity].
  unfold capacity. vm_compute. lia.
Qed.

(** For every [n] there is a run with [n] tasks inside the timed section. *)
Lemma no_bound_on_running n : ∃ st, run (burst n) tasks_init = Some st ∧ running st = n.
Proof. destruct (burst_runs n) as (st & Hrun & _ & _ & _ & Hr). by exists st. Qed.

(** C3, evaluated on the code.  A task that sends is released once, by its
    deferred receive, whether it completes or is cancelled.  But the
    deferred receive is also run by a task that took the shutdown case
    without sending: on a channel holding others' values it takes one of
    them, and on the fresh channel the dispatcher gives it, it has no move
    and stays at the receive in every continuation.  With the context
    cancelled and room in the buffer the send case is enabled as well, so
    the task may also start. *)
Theorem not_started_task_still_receives :
  (∀ c taskID b,
     TaskManager c taskID MSend b AtSelect
     = (if Nat.ltb b capacity
        then Some (S b, Running, [Line ("Starting background task " +:+ taskID)])
        else None)
     ∧ TaskManager c taskID MTimer (S b) Running
       = Some (S b, AtDefer, [Line ("Completed background task " +:+ taskID)])
     ∧ TaskManager true taskID MDone (S b) Running
       = Some (S b, AtDefer, [Line ("Cancelled background task " +:+ taskID)])
     ∧ TaskManager c taskID MRecv (S b) AtDefer = Some (b, Returned, []))
  ∧ (∀ taskID b,
       TaskManager true taskID MDone (S b) AtSelect
       = Some (S b, AtDefer, [Line ("Task " +:+ taskID +:+ " not started due to shutdown")])
       ∧ TaskManager true taskID MRecv (S b) AtDefer = Some (b, Returned, []))
  ∧ run late_task tasks_init = Some late_task_state
  ∧ (∀ m, step (Step 0 m) late_task_state = None)
  ∧ (∀ evs st, run evs late_task_state = Some st →
       tasks st !! 0 = Some (mkTask "task-1" 0 AtDefer))
  ∧ TaskManager true "task-1" MSend 0 AtSelect
    = Some (1, Running, [Line "Starting background task task-1"]).
Proof.
  split; [|split; [|split; [|split; [|split]]]].
  - done.
  - done.
  - reflexivity.
  - by intros [].
  - intros evs st Hrun.
    assert (late_task_stuck late_task_state) as Hst.
    { split; [done|]. split; [done|]. split; [done|].
      intros [|i] t; [done|]. by destruct i. }
    by destruct (late_task_stuck_run evs _ _ Hst Hrun) as (_ & Ht & _).
  - reflexivity.
Qed.

(** Another task is dispatched, runs and returns while the late task stays
    at its deferred receive. *)
Lemma not_started_task_still_receives_witness :
  run [Spawn "task-2"; Step 1 MSend; Step 1 MTimer; Step 1 MRecv] late_task_state
  = Some {| pool := []; chans := [0; 0];
            tasks := [mkTask "task-1" 0 AtDefer; mkTask "task-2" 1 Returned];
            cancelled := true;
            task_log := [Line "Task task-1 not started due to shutdown";
                         Line "Starting background task task-2";
                         Line "Completed background task task-2"] |}
  ∧ tasks {| pool := []; chans := [0; 0];
             tasks := [mkTask "task-1" 0 AtDefer; mkTask "task-2" 1 Returned];
             cancelled := true;
             task_log := [Line "Task task-1 not started due to shutdown";
                          Line "Starting background task task-2";
                          Line "Completed background task task-2"] |} !! 0
    = Some (mkTask "task-1" 0 AtDefer).
Proof.
  assert (run [Spawn "task-2"; Step 1 MSend; Step 1 MTimer; Step 1 MRecv] late_task_state
          = Some {| pool := []; chans := [0; 0];
                    tasks := [mkTask "task-1" 0 AtDefer; mkTask "task-2" 1 Returned];
                    cancelled := true;
                    task_log := [Line "Task task-1 not started due to shutdown";
                                 Line "Starting background task task-2";
                                 Line "Completed background task task-2"] |}) as Hrun
    by reflexivity.
  split; [exact Hrun|].
  exact (proj1 (proj2 (proj2 (proj2 (proj2 not_started_task_still_receives))))
           _ _ Hrun).
Defined.

(** * Further properties of the code *)

(** ** The dependency store *)

Lemma found_after_register cName cValue name p :
  snd (GetDependency name (RegisterDependency cName cValue p)) = true
  ↔ (∃ value, cName = Some name ∧ cValue = Some value)
    ∨ snd (GetDependency name p) = true.
Proof.
  unfold GetDependency. destruct cName as [n|], cValue as [v|];
    cbn [RegisterDependency dependencies]; try (split; [by right | by intros [(? & ? & ?)|]]).
  destruct (decide (n = name)) as [->|Hne].
  - rewrite lookup_insert_eq. split; [|done]. intros _. left. by exists v.
  - rewrite lookup_insert_ne by done. split; [by right|].
    intros [(? & ? & ?)|]; [congruence | done].
Qed.

(** X1. A dependency registered under a name is what [GetDependency]
    returns for that name, with the presence flag set; the answer for every
    other name is what it was before; and the call writes no log line and
    leaves the server's variables alone. *)
Theorem dependency_round_trip p name value :
  GetDependency name (RegisterDependency (Some name) (Some value) p) = (Some value, true)
  ∧ (∀ other, other ≠ name →
       GetDependency other (RegisterDependency (Some name) (Some value) p)
       = GetDependency other p)
  ∧ server_state (RegisterDependency (Some name) (Some value) p) = server_state p.
Proof.
  unfold GetDependency. cbn [RegisterDependency dependencies]. split; [|split].
  - by rewrite lookup_insert_eq.
  - intros other Hne. by rewrite lookup_insert_ne.
  - done.
Qed.

(** X2. Registering a dependency twice under one name leaves the process
    exactly as if only the second registration had been made. *)
Theorem dependency_last_write_wins p name value1 value2 :
  RegisterDependency (Some name) (Some value2)
    (RegisterDependency (Some name) (Some value1) p)
  = RegisterDependency (Some name) (Some value2) p.
Proof.
  unfold RegisterDependency. cbn [server_state dependencies]. f_equal.
  apply insert_insert_eq.
Qed.

(** X3. A call to [RegisterDependency] with a nil name or a nil value logs
    the diagnostic and changes nothing else: the dependency store, the
    routes, the middleware sequence and the installed handler are as
    before. *)
Theorem dependency_nil_pointer_rejected cName cValue p :
  cName = None ∨ cValue = None →
  let p' := RegisterDependency cName cValue p in
  dependencies p' = dependencies p
  ∧ (∀ name, GetDependency name p' = GetDependency name p)
  ∧ routes (server_state p') = routes (server_state p)
  ∧ middlewares (server_state p') = middlewares (server_state p)
  ∧ installed (server_state p') = installed (server_state p)
  ∧ log (server_state p')
    = log (server_state p)
      ++ [Line "Error: One or more parameters are nil in RegisterDependency"].
Proof.
  intros Hnil p'. unfold p'.
  destruct cName as [name|], cValue as [value|]; try done.
  by destruct Hnil.
Qed.

(** A value registered without a name. *)
Lemma dependency_nil_pointer_rejected_witness :
  (@None string = None ∨ Some "token" = None)
  ∧ GetDependency "auth"
      (RegisterDependency None (Some "token")
         (RegisterDependency (Some "auth") (Some "secret") process_init))
    = (Some "secret", true).
Proof.
  split; [by left|].
  rewrite (proj1 (proj2 (dependency_nil_pointer_rejected None (Some "token")
                           (RegisterDependency (Some "auth") (Some "secret") process_init)
                           (or_introl eq_refl))) "auth").
  reflexivity.
Defined.

(** X4. After any sequence of [RegisterDependency] calls on a fresh
    process, [GetDependency] reports a name as present exactly when some
    call registered it with two non-nil pointers: a registered dependency is
    never lost, and a missing one is reported with the nil value and the
    flag false. *)
Theorem dependency_found_iff_registered calls name :
  let p := register_dependencies calls process_init in
  (snd (GetDependency name p) = true ↔ ∃ value, (Some name, Some value) ∈ calls)
  ∧ (snd (GetDependency name p) = false → GetDependency name p = (None, false)).
Proof.
  intros p. unfold p. split.
  - induction calls as [|[cName cValue] calls IH] using rev_ind.
    + unfold GetDependency. cbn. rewrite lookup_empty. split; [done|].
      intros (? & Hin). by apply elem_of_nil in Hin.
    + unfold register_dependencies. rewrite foldl_app. cbn [foldl fst snd].
      fold (register_dependencies calls process_init).
      rewrite found_after_register, IH. split.
      * intros [(value & -> & ->)|(value & Hin)]; exists value; apply elem_of_app;
          [right; by left | by left].
      * intros (value & [Hin|Hin]%elem_of_app); [right; by exists value | left].
        apply list_elem_of_singleton in Hin as [= <- <-]. by exists value.
  - unfold GetDependency. by destruct (dependencies _ !! name).
Qed.

(** ** Middleware registration and the installed chain *)

Section Layers.

Context {lib : CaseMapping}.

Lemma logging_layers k handler env r :
  nested (replicate k loggingMiddleware) handler env r
  = {| response := response (handler env r);
       logged := logged (handler env r) ++ replicate k (request_line r);
       spawned := spawned (handler env r) |}.
Proof.
  induction k as [|k IH].
  - simpl. rewrite app_nil_r. by destruct (handler env r).
  - cbn [replicate nested foldr]. unfold loggingMiddleware at 1.
    fold (nested (replicate k loggingMiddleware) handler). rewrite IH.
    cbn [response logged spawned]. f_equal.
    by rewrite <- app_assoc, <- replicate_S_end.
Qed.

Lemma only_logging_replicate mws :
  only_logging mws → mws = replicate (length mws) loggingMiddleware.
Proof. induction 1 as [|mw mws -> _ IH]; [done|]. simpl. by f_equal. Qed.

Lemma apply_calls_snoc calls c s :
  apply_calls (calls ++ [c]) s = apply_call c (apply_calls calls s).
Proof. unfold apply_calls. by rewrite foldl_app. Qed.

Lemma apply_call_installed c s : installed (apply_call c s) = installed s.
Proof.
  destruct c; [apply RegisterRoute_installed | apply RegisterMiddleware_installed].
Qed.

Lemma RegisterMiddleware_cases cName cEnabled s :
  (cName = Some "logging" ∧ cEnabled ≠ 0%Z
   ∧ middlewares (RegisterMiddleware cName cEnabled s) = middlewares s ++ [loggingMiddleware])
  ∨ ((cName ≠ Some "logging" ∨ cEnabled = 0%Z)
     ∧ middlewares (RegisterMiddleware cName cEnabled s) = middlewares s).
Proof.
  unfold RegisterMiddleware. destruct cName as [name|]; [|right; split; [by left | done]].
  cbn zeta. destruct (Z.eqb_spec cEnabled 0) as [->|Hne]; cbn [negb].
  - right. split; [by right | done].
  - destruct (String.eqb_spec name "logging") as [->|Hname].
    + left. done.
    + right. split; [left; congruence | done].
Qed.

End Layers.

(** X5. [RegisterMiddleware] extends the middleware sequence, by the
    logging wrapper at its end, exactly when the name is non-nil and equal to
    "logging" (letter case included) and the flag is non-zero; in every other
    case (nil name, flag 0, any other name) the sequence is unchanged.  Every
    call writes one log line and never touches the routes or the installed
    handler. *)
Theorem middleware_registered_iff_logging_enabled cName cEnabled s :
  let s' := RegisterMiddleware cName cEnabled s in
  ((cName = Some "logging" ∧ cEnabled ≠ 0%Z
    ∧ middlewares s' = middlewares s ++ [loggingMiddleware])
   ∨ ((cName ≠ Some "logging" ∨ cEnabled = 0%Z) ∧ middlewares s' = middlewares s))
  ∧ routes s' = routes s
  ∧ installed s' = installed s
  ∧ length (log s') = S (length (log s)).
Proof.
  intros s'. unfold s'. split; [apply RegisterMiddleware_cases|].
  split; [apply RegisterMiddleware_routes|]. split; [apply RegisterMiddleware_installed|].
  unfold RegisterMiddleware. destruct cName as [name|]; cbn zeta.
  - destruct (negb (negb (cEnabled =? 0)%Z)); [|destruct (String.eqb name "logging")];
      cbn [log println]; rewrite length_app; simpl; lia.
  - cbn [log println]. rewrite length_app. simpl. lia.
Qed.

(** X6. A server started in a reachable state answers every request with
    the response of the mux, starts a task exactly when the mux does, and
    logs the lines of the mux followed by one request line for each
    middleware in the sequence at start: names other than "logging" and
    disabled registrations have left no layer. *)
Theorem started_server_logs_one_line_per_middleware {lib : CaseMapping} s rng now r :
  reachable s → installed s = None →
  serve (StartServer s) rng now r
  = Some {| response := response (mux (the_env (StartServer s) rng now) r);
            logged := logged (mux (the_env (StartServer s) rng now) r)
                      ++ replicate (length (middlewares s)) (request_line r);
            spawned := spawned (mux (the_env (StartServer s) rng now) r) |}.
Proof.
  intros Hs _. unfold serve. cbn [installed StartServer println].
  rewrite build_chain_nested.
  rewrite (only_logging_replicate _ (reachable_only_logging s Hs)) at 1.
  by rewrite logging_layers.
Qed.

(** Two logging middlewares, one disabled and one unknown registration,
    then GET /hello. *)
Lemma started_server_logs_one_line_per_middleware_witness :
  (reachable (apply_calls [CallMiddleware (Some "logging") 1;
                           CallMiddleware (Some "cors") 1;
                           CallMiddleware (Some "logging") 0;
                           CallMiddleware (Some "logging") 7;
                           CallRoute (Some "/hello") (Some "GET") (Some "Hi there")
                             (Some "greets the caller")] init)
   ∧ installed (apply_calls [CallMiddleware (Some "logging") 1;
                             CallMiddleware (Some "cors") 1;
                             CallMiddleware (Some "logging") 0;
                             CallMiddleware (Some "logging") 7;
                             CallRoute (Some "/hello") (Some "GET") (Some "Hi there")
                               (Some "greets the caller")] init) = None)
  ∧ (logged <$> serve (StartServer
                         (apply_calls [CallMiddleware (Some "logging") 1;
                                       CallMiddleware (Some "cors") 1;
                                       CallMiddleware (Some "logging") 0;
                                       CallMiddleware (Some "logging") 7;
                                       CallRoute (Some "/hello") (Some "GET") (Some "Hi there")
                                         (Some "greets the caller")] init))
                  [] 1 (client "GET" "/hello"))
    = Some [Line "Route found for key: /helloGET, serving response";
            request_line (client "GET" "/hello");
            request_line (client "GET" "/hello")].
Proof.
  assert (reachable (apply_calls [CallMiddleware (Some "logging") 1;
                                  CallMiddleware (Some "cors") 1;
                                  CallMiddleware (Some "logging") 0;
                                  CallMiddleware (Some "logging") 7;
                                  CallRoute (Some "/hello") (Some "GET") (Some "Hi there")
                                    (Some "greets the caller")] init)) as Hs.
  { apply reach_route. do 4 apply reach_middleware. apply reach_init. }
  split; [split; [exact Hs | reflexivity]|].
  rewrite (started_server_logs_one_line_per_middleware _ [] 1 (client "GET" "/hello")
             Hs eq_refl).
  reflexivity.
Defined.

(** X7. Whatever registration calls follow, the handler installed by
    [StartServer] stays the one that was built: route and middleware
    registrations never replace or rebuild it. *)
Theorem later_calls_keep_installed_handler {lib : CaseMapping} calls s :
  installed (apply_calls calls s) = installed s
  ∧ installed (apply_calls calls (StartServer s)) = Some (build_chain (middlewares s) mux).
Proof.
  assert (∀ s0, installed (apply_calls calls s0) = installed s0) as H.
  { induction calls as [|c calls IH] using rev_ind; intros s0; [done|].
    by rewrite apply_calls_snoc, apply_call_installed. }
  split; [apply H|]. by rewrite H.
Qed.

(** ** The route registry *)

Section RegistryGrowth.

Context {lib : CaseMapping}.

Lemma apply_call_grows c s :
  dom (routes s) ⊆ dom (routes (apply_call c s))
  ∧ middlewares s `prefix_of` middlewares (apply_call c s)
  ∧ log s `prefix_of` log (apply_call c s).
Proof.
  destruct c as [cPath cMethod cMessage cDesc|cName cEnabled]; cbn [apply_call].
  - rewrite RegisterRoute_middlewares. split; [|split; [done|]].
    + destruct cPath as [path|], cMethod as [m|], cMessage as [message|], cDesc as [desc|];
        try done.
      rewrite RegisterRoute_routes. apply dom_insert_subseteq.
    + destruct cPath as [path|], cMethod as [m|], cMessage as [message|], cDesc as [desc|];
        cbn [RegisterRoute log println]; try by apply prefix_app_r.
      by do 2 apply prefix_app_r.
  - rewrite RegisterMiddleware_routes. split; [done|]. split.
    + destruct (RegisterMiddleware_cases cName cEnabled s) as [(_ & _ & ->)|[_ ->]];
        [by apply prefix_app_r | done].
    + unfold RegisterMiddleware. destruct cName as [name|]; cbn zeta.
      * destruct (negb (negb (cEnabled =? 0)%Z)); [|destruct (String.eqb name "logging")];
          cbn [log println]; by apply prefix_app_r.
      * cbn [log println]. by apply prefix_app_r.
Qed.

Lemma append_same_length (a b c d : string) :
  a +:+ b = c +:+ d → String.length b = String.length d → a = c ∧ b = d.
Proof.
  revert c. induction a as [|x a IH]; intros c Heq Hlen.
  - destruct c as [|y c]; [done|]. change (b = String y (c +:+ d)) in Heq. subst b.
    cbn [String.length] in Hlen. rewrite length_append in Hlen. lia.
  - destruct c as [|y c].
    + change (String x (a +:+ b) = d) in Heq. subst d. cbn [String.length] in Hlen.
      rewrite length_append in Hlen. lia.
    + change (String x (a +:+ b) = String y (c +:+ d)) in Heq.
      injection Heq as -> Heq. destruct (IH c Heq Hlen) as [-> ->]. done.
Qed.

End RegistryGrowth.

(** X8. Every entry of the registry of a reachable state was written by
    [RegisterRoute]: it is stored under its own path followed by its own
    method, its method is uppercase, its parameter list is empty and its
    response table has the single entry 200, "Successful response". *)
Theorem registry_entries_well_formed {lib : CaseMapping} s key rt :
  reachable s → routes s !! key = Some rt →
  key = RouteInfo.Path rt +:+ RouteInfo.Method rt
  ∧ ToUpper (RouteInfo.Method rt) = RouteInfo.Method rt
  ∧ RouteInfo.Parameters rt = []
  ∧ RouteInfo.Responses rt = {[ 200%Z := "Successful response" ]}.
Proof.
  intros Hs Hk.
  destruct (reachable_routes_wf s Hs key rt Hk) as (path & m & message & desc & -> & ->).
  cbn [new_route RouteInfo.Path RouteInfo.Method RouteInfo.Parameters RouteInfo.Responses].
  by rewrite ToUpper_fixed.
Qed.

(** The route registered as ("/late", "post") after the server was
    started. *)
Lemma registry_entries_well_formed_witness :
  (reachable late_server
   ∧ routes late_server !! "/latePOST"
     = Some (new_route "/late" "POST" "Late" "added after start"))
  ∧ "/latePOST" = "/late" +:+ "POST"
  ∧ ToUpper "POST" = "POST".
Proof.
  assert (reachable late_server) as Hs.
  { apply reach_route, reach_start; [apply reach_route, reach_init | reflexivity]. }
  assert (routes late_server !! "/latePOST"
          = Some (new_route "/late" "POST" "Late" "added after start")) as Hk
    by (vm_compute; reflexivity).
  split; [done|].
  destruct (registry_entries_well_formed late_server _ _ Hs Hk) as (H1 & H2 & _).
  exact (conj H1 H2).
Defined.

(** X9. Registration calls only add: after any sequence of [RegisterRoute]
    and [RegisterMiddleware] calls every key that was in the registry is
    still in it, the earlier middleware sequence is a prefix of the later
    one, and the earlier log is a prefix of the later log.  Nothing is ever
    removed. *)
Theorem registration_calls_only_add {lib : CaseMapping} calls s :
  dom (routes s) ⊆ dom (routes (apply_calls calls s))
  ∧ middlewares s `prefix_of` middlewares (apply_calls calls s)
  ∧ log s `prefix_of` log (apply_calls calls s).
Proof.
  induction calls as [|c calls (IH1 & IH2 & IH3)] using rev_ind; [done|].
  rewrite apply_calls_snoc.
  destruct (apply_call_grows c (apply_calls calls s)) as (H1 & H2 & H3).
  split; [by etrans|]. split; by etrans.
Qed.

(** X10. [RegisterRoute] does not see the letter case of its method
    argument: two calls whose methods agree after uppercasing produce the
    same state, log lines included. *)
Theorem register_route_ignores_method_case {lib : CaseMapping} path m m' message desc s :
  ToUpper m = ToUpper m' →
  RegisterRoute (Some path) (Some m) (Some message) (Some desc) s
  = RegisterRoute (Some path) (Some m') (Some message) (Some desc) s.
Proof. intros H. unfold RegisterRoute. by rewrite H. Qed.

(** "Get" and "gET". *)
Lemma register_route_ignores_method_case_witness :
  ToUpper "Get" = ToUpper "gET"
  ∧ RegisterRoute (Some "/hello") (Some "Get") (Some "Hi there") (Some "greets") init
    = RegisterRoute (Some "/hello") (Some "gET") (Some "Hi there") (Some "greets") init.
Proof.
  split; [reflexivity|].
  exact (register_route_ignores_method_case "/hello" "Get" "gET" "Hi there" "greets" init
           eq_refl).
Defined.

(** X11. [RegisterRoute] writes at most one key: the entry under every key
    other than the path followed by the uppercased method is what it was
    before, and a call with a nil pointer changes no entry at all. *)
Theorem register_route_touches_one_key {lib : CaseMapping} cPath cMethod cMessage cDesc s key :
  (∀ path m, cPath = Some path → cMethod = Some m → key ≠ path +:+ ToUpper m) →
  routes (RegisterRoute cPath cMethod cMessage cDesc s) !! key = routes s !! key.
Proof.
  intros Hkey.
  destruct cPath as [path|], cMethod as [m|], cMessage as [message|], cDesc as [desc|];
    try done.
  rewrite RegisterRoute_routes, lookup_insert_ne; [done|].
  intros Heq. by apply (Hkey path m).
Qed.

(** Registering POST /hello leaves GET /hello as it was. *)
Lemma register_route_touches_one_key_witness :
  (∀ path m, Some "/hello" = Some path → Some "post" = Some m →
             "/helloGET" ≠ path +:+ ToUpper m)
  ∧ routes (RegisterRoute (Some "/hello") (Some "post") (Some "Posted") (Some "creates")
              hello_server) !! "/helloGET"
    = routes hello_server !! "/helloGET".
Proof.
  assert (∀ path m, Some "/hello" = Some path → Some "post" = Some m →
                    "/helloGET" ≠ path +:+ ToUpper m) as Hkey.
  { intros path m [= <-] [= <-]. discriminate. }
  split; [exact Hkey|].
  exact (register_route_touches_one_key (Some "/hello") (Some "post") (Some "Posted")
           (Some "creates") hello_server "/helloGET" Hkey).
Defined.

(** ** The dispatcher *)

(** X12. On a running server a background task is started exactly for
    the requests that the mux hands to the dispatcher, whose key is in the
    registry and whose response is written without error; its id is
    task-<clock reading>.  Requests answered 404 or 500, by the API document,
    by the file server or by the mux itself (redirect, 400) start none. *)
Theorem task_started_iff_route_matched {lib : CaseMapping} s rng now err r :
  reachable s → installed s ≠ None →
  ∃ o, serve_io s rng now err r = Some o
       ∧ spawned o
         = match ServeMux.route r, routes s !! (Request.Path r +:+ Request.Method r), err with
           | ServeMux.ToDispatcher, Some _, None => Some ("task-" +:+ decimal now)
           | _, _, _ => None
           end.
Proof.
  intros Hs Hrun.
  destruct (serve_io_running s rng now err r Hs Hrun) as (o & Ho & _ & Hsp).
  exists o. split; [done|]. rewrite Hsp. unfold mux.
  destruct (ServeMux.route r); try done.
  - unfold ServeOpenAPI. by destruct (env_encode_error _).
  - unfold dispatcher. cbn [env_routes env_encode_error the_env_io].
    destruct (routes s !! (Request.Path r +:+ Request.Method r)); [|done].
    by destruct err.
Qed.

(** POST /hello on the server that only has GET /hello starts no task. *)
Lemma task_started_iff_route_matched_witness :
  (reachable hello_server ∧ installed hello_server ≠ None)
  ∧ ∃ o, serve_io hello_server (range_of hello_server) 1 None (client "POST" "/hello")
         = Some o
         ∧ spawned o = None.
Proof.
  assert (reachable hello_server) as Hs
    by (apply reach_start; [apply reach_route, reach_init | reflexivity]).
  assert (installed hello_server ≠ None) as Hrun by discriminate.
  split; [done|].
  destruct (task_started_iff_route_matched hello_server (range_of hello_server) 1 None
              (client "POST" "/hello") Hs Hrun) as (o & Ho & Hsp).
  exists o. split; [done|]. rewrite Hsp. reflexivity.
Defined.

(** X13. Task ids are as distinct as the clock readings they are made
    from: two requests get the same task id only if [time.Now().UnixNano()]
    returned the same value for both. *)
Theorem task_id_injective now1 now2 :
  task_id now1 = task_id now2 → now1 = now2.
Proof.
  unfold task_id, decimal. intros H%append_inv_head.
  apply DecimalZ.to_int_inj.
  apply (f_equal NilEmpty.int_of_string) in H. rewrite !NilEmpty.isi in H. congruence.
Qed.

(** One reading written in two ways. *)
Lemma task_id_injective_witness :
  task_id 1700000000000000000 = task_id (1699999999999999999 + 1)
  ∧ 1700000000000000000%Z = (1699999999999999999 + 1)%Z.
Proof.
  split; [reflexivity|].
  exact (task_id_injective 1700000000000000000 (1699999999999999999 + 1) eq_refl).
Defined.

(** X14. The concatenated key identifies the pair whenever the methods
    have the same length: if the dispatcher finds a route for a request and
    the route's method is as long as the request's method, the route was
    registered for exactly that path and that method. *)
Theorem same_length_method_hit_is_exact {lib : CaseMapping} s r rt :
  reachable s →
  routes s !! (Request.Path r +:+ Request.Method r) = Some rt →
  String.length (RouteInfo.Method rt) = String.length (Request.Method r) →
  RouteInfo.Path rt = Request.Path r ∧ RouteInfo.Method rt = Request.Method r.
Proof.
  intros Hs Hk Hlen.
  destruct (reachable_routes_wf s Hs _ rt Hk) as (path & m & message & desc & -> & Hkey).
  cbn [new_route RouteInfo.Path RouteInfo.Method] in *.
  symmetry in Hkey. by apply append_same_length in Hkey.
Qed.

(** GET /hello. *)
Lemma same_length_method_hit_is_exact_witness :
  (reachable hello_server
   ∧ routes hello_server !! ("/hello" +:+ "GET")
     = Some (new_route "/hello" "GET" "Hi there" "greets the caller")
   ∧ String.length "GET" = String.length "GET")
  ∧ "/hello" = "/hello" ∧ "GET" = "GET".
Proof.
  assert (reachable hello_server) as Hs
    by (apply reach_start; [apply reach_route, reach_init | reflexivity]).
  assert (routes hello_server !! (Request.Path (client "GET" "/hello")
                                  +:+ Request.Method (client "GET" "/hello"))
          = Some (new_route "/hello" "GET" "Hi there" "greets the caller")) as Hk
    by (vm_compute; reflexivity).
  split; [done|].
  exact (same_length_method_hit_is_exact hello_server (client "GET" "/hello") _ Hs Hk eq_refl).
Defined.

(** ** The task subsystem as the server drives it *)

Section OwnChannels.

Lemma TaskManager_buffer_ok c taskID m b pc b' pc' lines :
  buffer_ok pc b → TaskManager c taskID m b pc = Some (b', pc', lines) →
  buffer_ok pc' b'.
Proof.
  destruct pc, m; cbn [TaskManager buffer_ok]; intros Hb H; try done.
  - subst b. injection H as <- <- _. done.
  - destruct c; [|done]. injection H as <- <- _. subst b. simpl. lia.
  - destruct c; [|done]. injection H as <- <- _. subst b. simpl. lia.
  - injection H as <- <- _. subst b. simpl. lia.
  - destruct b as [|n]; [done|]. injection H as <- <- _. simpl. lia.
Qed.

Lemma own_channels_step ev st st' :
  own_channels st → step ev st = Some st' → own_channels st'.
Proof.
  intros (Hpool & Hlen & Hown) Hstep. destruct ev as [taskID|i m|]; simpl in Hstep.
  - unfold taskPool_Get in Hstep. rewrite Hpool in Hstep. injection Hstep as <-.
    unfold own_channels. cbn [pool chans tasks]. split; [done|].
    split; [by rewrite !length_app, Hlen|].
    intros i t [Hi|[Hi Heq]]%lookup_app_Some.
    + destruct (Hown i t Hi) as (Hc & b & Hb & Hok). split; [done|].
      exists b. split; [|done]. by apply lookup_app_l_Some.
    + destruct (i - length (tasks st)) as [|?] eqn:Hd; [|done].
      injection Heq as <-. cbn [task_chan task_pc].
      assert (i = length (tasks st)) as -> by lia.
      split; [done|]. exists 0. split; [|done].
      rewrite <- Hlen. by apply list_lookup_middle.
  - destruct (tasks st !! i) as [t|] eqn:Hi; [|done]. simpl in Hstep.
    destruct (Hown i t Hi) as (Hc & b & Hb & Hok). rewrite Hc in Hstep.
    rewrite Hb in Hstep. simpl in Hstep.
    destruct (TaskManager (cancelled st) (task_name t) m b (task_pc t))
      as [[[b' pc'] lines]|] eqn:Hm; [|done].
    simpl in Hstep. injection Hstep as <-.
    unfold own_channels. cbn [pool chans tasks]. split; [done|].
    split; [by rewrite !length_insert|].
    intros j t' Hj. destruct (decide (i = j)) as [<-|Hne].
    + rewrite list_lookup_insert_eq in Hj by by eapply lookup_lt_Some.
      injection Hj as <-. cbn [task_chan task_pc]. split; [done|].
      exists b'. split; [|by eapply TaskManager_buffer_ok].
      rewrite list_lookup_insert_eq; [done|]. by eapply lookup_lt_Some.
    + rewrite list_lookup_insert_ne in Hj by done.
      destruct (Hown j t' Hj) as (Hc' & b0 & Hb0 & Hok0). split; [done|].
      exists b0. split; [|done]. by rewrite list_lookup_insert_ne.
  - injection Hstep as <-. done.
Qed.

Lemma own_channels_run evs st st' :
  own_channels st → run evs st = Some st' → own_channels st'.
Proof.
  revert st. induction evs as [|ev evs IH]; intros st Hst; simpl.
  - by intros [= <-].
  - destruct (step ev st) as [st1|] eqn:Hstep; [|done]. simpl.
    apply IH. by apply (own_channels_step ev st).
Qed.

Lemma own_channels_init : own_channels tasks_init.
Proof. split; [done|]. split; [done|]. by intros i t. Qed.

Lemma cancelled_step ev st st' :
  step ev st = Some st' →
  cancelled st' = match ev with Shutdown => true | _ => cancelled st end.
Proof.
  destruct ev as [taskID|i m|]; simpl; intros Hstep.
  - unfold taskPool_Get in Hstep. destruct (pool st); by injection Hstep as <-.
  - destruct (tasks st !! i) as [t|]; [|done]. simpl in Hstep.
    destruct (chans st !! task_chan t) as [b|]; [|done]. simpl in Hstep.
    destruct (TaskManager _ _ _ _ _) as [[[b' pc'] lines]|]; [|done].
    by injection Hstep as <-.
  - by injection Hstep as <-.
Qed.

Lemma cancelled_run evs st st' :
  run evs st = Some st' →
  cancelled st' = true ↔ cancelled st = true ∨ Shutdown ∈ evs.
Proof.
  revert st. induction evs as [|ev evs IH]; intros st; simpl.
  - intros [= <-]. split; [by left|]. intros [?|Hin]; [done|]. by apply elem_of_nil in Hin.
  - destruct (step ev st) as [st1|] eqn:Hstep; [|done]. simpl. intros Hrun.
    rewrite (IH st1 Hrun), (cancelled_step ev st st1 Hstep).
    destruct ev as [taskID|i m|].
    + split; (intros [?|Hin]; [by left|right]); [by right|].
      by apply elem_of_cons in Hin as [?|?].
    + split; (intros [?|Hin]; [by left|right]); [by right|].
      by apply elem_of_cons in Hin as [?|?].
    + split; [|by left]. intros _. right. by left.
Qed.

Lemma quiet_lines taskID m b pc b' pc' lines :
  TaskManager false taskID m b pc = Some (b', pc', lines) →
  Forall start_or_completion lines.
Proof.
  destruct pc, m; cbn [TaskManager]; intros H; try done.
  - destruct (Nat.ltb b capacity); [|done]. injection H as _ _ <-.
    constructor; [|done]. exists taskID. by left.
  - injection H as _ _ <-. constructor; [|done]. exists taskID. by right.
  - destruct b; [done|]. by injection H as _ _ <-.
Qed.

Lemma quiet_run evs st st' :
  cancelled st = false → Shutdown ∉ evs →
  Forall start_or_completion (task_log st) →
  run evs st = Some st' → Forall start_or_completion (task_log st').
Proof.
  revert st. induction evs as [|ev evs IH]; intros st Hc Hno Hlog; simpl.
  - by intros [= <-].
  - destruct (step ev st) as [st1|] eqn:Hstep; [|done]. simpl.
    apply not_elem_of_cons in Hno as [Hev Hno].
    apply IH; [|done|].
    + rewrite (cancelled_step ev st st1 Hstep). by destruct ev.
    + destruct ev as [taskID|i m|]; simpl in Hstep; [| |done].
      * unfold taskPool_Get in Hstep. destruct (pool st); by injection Hstep as <-.
      * destruct (tasks st !! i) as [t|]; [|done]. simpl in Hstep.
        destruct (chans st !! task_chan t) as [b|]; [|done]. simpl in Hstep.
        destruct (TaskManager _ _ _ _ _) as [[[b' pc'] lines]|] eqn:Hm; [|done].
        simpl in Hstep. injection Hstep as <-. cbn [task_log].
        apply Forall_app. split; [done|]. rewrite Hc in Hm. by eapply quiet_lines.
Qed.

End OwnChannels.

(** X15. In every state the task subsystem can reach, the pool is empty
    (no channel is ever put back), there is one channel per task, task [i]
    works on channel [i] and on no other, and no buffer ever holds more
    than one value: the capacity 10 of a channel is never approached. *)
Theorem every_task_has_its_own_channel evs st :
  run evs tasks_init = Some st →
  pool st = []
  ∧ length (chans st) = length (tasks st)
  ∧ (∀ i t, tasks st !! i = Some t → task_chan t = i)
  ∧ (∀ c b, chans st !! c = Some b → b ≤ 1 ∧ b < capacity).
Proof.
  intros Hrun.
  destruct (own_channels_run evs _ _ own_channels_init Hrun) as (Hpool & Hlen & Hown).
  split; [done|]. split; [done|]. split.
  - intros i t Hi. by destruct (Hown i t Hi).
  - intros c b Hc. pose proof (lookup_lt_Some _ _ _ Hc) as Hlt. rewrite Hlen in Hlt.
    destruct (lookup_lt_is_Some_2 _ _ Hlt) as [t Ht].
    destruct (Hown c t Ht) as (_ & b0 & Hb0 & Hok). rewrite Hc in Hb0. injection Hb0 as <-.
    assert (b ≤ 1) by (destruct (task_pc t); simpl in Hok; lia).
    unfold capacity. lia.
Qed.

(** Three dispatches whose tasks have sent. *)
Lemma every_task_has_its_own_channel_witness :
  run (burst 3) tasks_init
  = Some {| pool := []; chans := [1; 1; 1];
            tasks := [mkTask "task-0" 0 Running; mkTask "task-1" 1 Running;
                      mkTask "task-2" 2 Running];
            cancelled := false;
            task_log := [Line "Starting background task task-0";
                         Line "Starting background task task-1";
                         Line "Starting background task task-2"] |}
  ∧ length [1; 1; 1] = length [mkTask "task-0" 0 Running; mkTask "task-1" 1 Running;
                               mkTask "task-2" 2 Running].
Proof.
  assert (run (burst 3) tasks_init
          = Some {| pool := []; chans := [1; 1; 1];
                    tasks := [mkTask "task-0" 0 Running; mkTask "task-1" 1 Running;
                              mkTask "task-2" 2 Running];
                    cancelled := false;
                    task_log := [Line "Starting background task task-0";
                                 Line "Starting background task task-1";
                                 Line "Starting background task task-2"] |}) as Hrun
    by reflexivity.
  split; [exact Hrun|].
  exact (proj1 (proj2 (every_task_has_its_own_channel _ _ Hrun))).
Defined.

(** X16. A task at the outer [select] is never kept waiting for a slot:
    in every reachable state its send can proceed, and takes it into the
    timed section. *)
Theorem send_never_blocks evs st i t :
  run evs tasks_init = Some st →
  tasks st !! i = Some t → task_pc t = AtSelect →
  ∃ st', step (Step i MSend) st = Some st'
         ∧ tasks st' !! i = Some (mkTask (task_name t) i Running)
         ∧ chans st' !! i = Some 1.
Proof.
  intros Hrun Hi Hpc.
  destruct (own_channels_run evs _ _ own_channels_init Hrun) as (Hpool & Hlen & Hown).
  destruct (Hown i t Hi) as (Hc & b & Hb & Hok). rewrite Hpc in Hok. simpl in Hok. subst b.
  pose proof (lookup_lt_Some _ _ _ Hi) as Hlt. pose proof (lookup_lt_Some _ _ _ Hb) as Hlc.
  cbn [step]. rewrite Hi. cbn [mbind option_bind]. rewrite Hc, Hb, Hpc.
  cbn [mbind option_bind TaskManager].
  replace (Nat.ltb 0 capacity) with true by done. cbn [mbind option_bind].
  eexists. split; [done|]. cbn [tasks chans].
  by rewrite !list_lookup_insert_eq.
Qed.

(** The third of three dispatches, the first two tasks being inside the
    timed section. *)
Lemma send_never_blocks_witness :
  (run (burst 2 ++ [Spawn "task-2"]) tasks_init
   = Some {| pool := []; chans := [1; 1; 0];
             tasks := [mkTask "task-0" 0 Running; mkTask "task-1" 1 Running;
                       mkTask "task-2" 2 AtSelect];
             cancelled := false;
             task_log := [Line "Starting background task task-0";
                          Line "Starting background task task-1"] |}
   ∧ task_pc (mkTask "task-2" 2 AtSelect) = AtSelect)
  ∧ ∃ st', step (Step 2 MSend)
             {| pool := []; chans := [1; 1; 0];
                tasks := [mkTask "task-0" 0 Running; mkTask "task-1" 1 Running;
                          mkTask "task-2" 2 AtSelect];
                cancelled := false;
                task_log := [Line "Starting background task task-0";
                             Line "Starting background task task-1"] |} = Some st'
           ∧ tasks st' !! 2 = Some (mkTask "task-2" 2 Running)
           ∧ chans st' !! 2 = Some 1.
Proof.
  assert (run (burst 2 ++ [Spawn "task-2"]) tasks_init
          = Some {| pool := []; chans := [1; 1; 0];
                    tasks := [mkTask "task-0" 0 Running; mkTask "task-1" 1 Running;
                              mkTask "task-2" 2 AtSelect];
                    cancelled := false;
                    task_log := [Line "Starting background task task-0";
                                 Line "Starting background task task-1"] |}) as Hrun
    by reflexivity.
  split; [done|].
  exact (send_never_blocks _ _ 2 (mkTask "task-2" 2 AtSelect) Hrun eq_refl eq_refl).
Defined.

(** X17. A task inside the timed section always gets out: when its timer
    fires it logs the completion, its deferred receive finds the value it
    sent, and it returns leaving its channel empty. *)
Theorem started_task_completes_and_releases evs st i t :
  run evs tasks_init = Some st →
  tasks st !! i = Some t → task_pc t = Running →
  ∃ st', run [Step i MTimer; Step i MRecv] st = Some st'
         ∧ tasks st' !! i = Some (mkTask (task_name t) i Returned)
         ∧ chans st' !! i = Some 0
         ∧ task_log st'
           = task_log st ++ [Line ("Completed background task " +:+ task_name t)].
Proof.
  intros Hrun Hi Hpc.
  destruct (own_channels_run evs _ _ own_channels_init Hrun) as (Hpool & Hlen & Hown).
  destruct (Hown i t Hi) as (Hc & b & Hb & Hok). rewrite Hpc in Hok. simpl in Hok. subst b.
  pose proof (lookup_lt_Some _ _ _ Hi) as Hlt. pose proof (lookup_lt_Some _ _ _ Hb) as Hlc.
  cbn [run step]. rewrite Hi. cbn [mbind option_bind]. rewrite Hc, Hb, Hpc.
  cbn [mbind option_bind TaskManager tasks chans cancelled task_name task_chan task_pc].
  rewrite !list_lookup_insert_eq by done.
  cbn [mbind option_bind TaskManager tasks chans cancelled task_name task_chan task_pc].
  rewrite !list_lookup_insert_eq by done.
  cbn [mbind option_bind TaskManager].
  eexists. split; [done|]. cbn [tasks chans task_log].
  rewrite !list_lookup_insert_eq by by rewrite length_insert.
  by rewrite app_nil_r.
Qed.

(** The second of three running tasks. *)
Lemma started_task_completes_and_releases_witness :
  (run (burst 3) tasks_init
   = Some {| pool := []; chans := [1; 1; 1];
             tasks := [mkTask "task-0" 0 Running; mkTask "task-1" 1 Running;
                       mkTask "task-2" 2 Running];
             cancelled := false;
             task_log := [Line "Starting background task task-0";
                          Line "Starting background task task-1";
                          Line "Starting background task task-2"] |}
   ∧ task_pc (mkTask "task-1" 1 Running) = Running)
  ∧ ∃ st', run [Step 1 MTimer; Step 1 MRecv]
             {| pool := []; chans := [1; 1; 1];
                tasks := [mkTask "task-0" 0 Running; mkTask "task-1" 1 Running;
                          mkTask "task-2" 2 Running];
                cancelled := false;
                task_log := [Line "Starting background task task-0";
                             Line "Starting background task task-1";
                             Line "Starting background task task-2"] |} = Some st'
           ∧ tasks st' !! 1 = Some (mkTask "task-1" 1 Returned)
           ∧ chans st' !! 1 = Some 0.
Proof.
  assert (run (burst 3) tasks_init
          = Some {| pool := []; chans := [1; 1; 1];
                    tasks := [mkTask "task-0" 0 Running; mkTask "task-1" 1 Running;
                              mkTask "task-2" 2 Running];
                    cancelled := false;
                    task_log := [Line "Starting background task task-0";
                                 Line "Starting background task task-1";
                                 Line "Starting background task task-2"] |}) as Hrun
    by reflexivity.
  split; [done|].
  destruct (started_task_completes_and_releases _ _ 1 (mkTask "task-1" 1 Running)
              Hrun eq_refl eq_refl) as (st' & Hrun' & Ht & Hc & _).
  by exists st'.
Defined.

(** X18. The shared context is cancelled by shutdown and by nothing else,
    and stays cancelled: after a run, [taskCtx] is done exactly when the run
    contains the [taskCancel()] of the shutdown sequence. *)
Theorem context_cancelled_iff_shutdown evs st :
  run evs tasks_init = Some st →
  cancelled st = true ↔ Shutdown ∈ evs.
Proof.
  intros Hrun. rewrite (cancelled_run evs _ _ Hrun). cbn [cancelled tasks_init].
  split; [by intros [?|?] | by right].
Qed.

(** A dispatch after shutdown. *)
Lemma context_cancelled_iff_shutdown_witness :
  run late_task tasks_init = Some late_task_state
  ∧ (cancelled late_task_state = true ↔ Shutdown ∈ late_task).
Proof.
  split; [reflexivity|]. by apply context_cancelled_iff_shutdown.
Defined.

(** X19. As long as the server has not been shut down, no task is ever
    cancelled or refused: every line the task subsystem has logged is the
    start or the completion of a task. *)
Theorem no_cancellation_before_shutdown evs st :
  run evs tasks_init = Some st → Shutdown ∉ evs →
  Forall start_or_completion (task_log st).
Proof.
  intros Hrun Hno. by apply (quiet_run evs tasks_init st).
Qed.

(** Two dispatches, the first task running to its end. *)
Lemma no_cancellation_before_shutdown_witness :
  (run (burst 2 ++ [Step 0 MTimer; Step 0 MRecv]) tasks_init
   = Some {| pool := []; chans := [0; 1];
             tasks := [mkTask "task-0" 0 Returned; mkTask "task-1" 1 Running];
             cancelled := false;
             task_log := [Line "Starting background task task-0";
                          Line "Starting background task task-1";
                          Line "Completed background task task-0"] |}
   ∧ Shutdown ∉ burst 2 ++ [Step 0 MTimer; Step 0 MRecv])
  ∧ Forall start_or_completion
      [Line "Starting background task task-0";
       Line "Starting background task task-1";
       Line "Completed background task task-0"].
Proof.
  assert (run (burst 2 ++ [Step 0 MTimer; Step 0 MRecv]) tasks_init
          = Some {| pool := []; chans := [0; 1];
                    tasks := [mkTask "task-0" 0 Returned; mkTask "task-1" 1 Running];
                    cancelled := false;
                    task_log := [Line "Starting background task task-0";
                                 Line "Starting background task task-1";
                                 Line "Completed background task task-0"] |}) as Hrun
    by reflexivity.
  assert (Shutdown ∉ burst 2 ++ [Step 0 MTimer; Step 0 MRecv]) as Hno.
  { cbn. intros Hin. repeat (apply elem_of_cons in Hin as [Hin|Hin]; [done|]).
    by apply elem_of_nil in Hin. }
  split; [done|].
  exact (no_cancellation_before_shutdown _ _ Hrun Hno).
Defined.

(** X20. After shutdown every task inside the timed section can observe
    the cancellation at once: it logs that it was cancelled, its deferred
    receive finds the value it sent, and it returns leaving its channel
    empty. *)
Theorem running_task_cancelled_on_shutdown evs st i t :
  run evs tasks_init = Some st → cancelled st = true →
  tasks st !! i = Some t → task_pc t = Running →
  ∃ st', run [Step i MDone; Step i MRecv] st = Some st'
         ∧ tasks st' !! i = Some (mkTask (task_name t) i Returned)
         ∧ chans st' !! i = Some 0
         ∧ task_log st'
           = task_log st ++ [Line ("Cancelled background task " +:+ task_name t)].
Proof.
  intros Hrun Hcanc Hi Hpc.
  destruct (own_channels_run evs _ _ own_channels_init Hrun) as (Hpool & Hlen & Hown).
  destruct (Hown i t Hi) as (Hc & b & Hb & Hok). rewrite Hpc in Hok. simpl in Hok. subst b.
  pose proof (lookup_lt_Some _ _ _ Hi) as Hlt. pose proof (lookup_lt_Some _ _ _ Hb) as Hlc.
  cbn [run step]. rewrite Hi. cbn [mbind option_bind]. rewrite Hc, Hb, Hpc, Hcanc.
  cbn [mbind option_bind TaskManager tasks chans cancelled task_name task_chan task_pc].
  rewrite !list_lookup_insert_eq by done.
  cbn [mbind option_bind TaskManager tasks chans cancelled task_name task_chan task_pc].
  rewrite !list_lookup_insert_eq by done.
  cbn [mbind option_bind TaskManager].
  eexists. split; [done|]. cbn [tasks chans task_log].
  rewrite !list_lookup_insert_eq by by rewrite length_insert.
  by rewrite app_nil_r.
Qed.

(** A task is started, then the server is shut down. *)
Lemma running_task_cancelled_on_shutdown_witness :
  (run (burst 1 ++ [Shutdown]) tasks_init
   = Some {| pool := []; chans := [1];
             tasks := [mkTask "task-0" 0 Running];
             cancelled := true;
             task_log := [Line "Starting background task task-0"] |}
   ∧ task_pc (mkTask "task-0" 0 Running) = Running)
  ∧ ∃ st', run [Step 0 MDone; Step 0 MRecv]
             {| pool := []; chans := [1];
                tasks := [mkTask "task-0" 0 Running];
                cancelled := true;
                task_log := [Line "Starting background task task-0"] |} = Some st'
           ∧ tasks st' !! 0 = Some (mkTask "task-0" 0 Returned)
           ∧ task_log st' = [Line "Starting background task task-0";
                             Line "Cancelled background task task-0"].
Proof.
  assert (run (burst 1 ++ [Shutdown]) tasks_init
          = Some {| pool := []; chans := [1];
                    tasks := [mkTask "task-0" 0 Running];
                    cancelled := true;
                    task_log := [Line "Starting background task task-0"] |}) as Hrun
    by reflexivity.
  split; [done|].
  destruct (running_task_cancelled_on_shutdown _ _ 0 (mkTask "task-0" 0 Running)
              Hrun eq_refl eq_refl eq_refl) as (st' & Hrun' & Ht & _ & Hlog).
  by exists st'.
Defined.
